(** * Attachments of a Confluence content item: [attachment.go]

    A shallow embedding of [src/attachment.go] (package [confluence]) and the
    properties of its endpoint builders, its five attachment operations and
    the batch reconciler [AddUpdateAttachments].

    Go strings are byte sequences, and so are Rocq's [string]s: [len],
    indexing and slicing count bytes on both sides.  Calls that leave the
    file ([client.request], [client.sendRequest], [net/url], [encoding/json],
    [os], the random multipart boundary) are fields of an environment record;
    the operations thread an explicit state made of the outside world and of
    the log of exchanges with the transport. *)

From Stdlib Require Import String Ascii List ZArith Bool Arith Lia DecimalString.
Import ListNotations.

Local Open Scope string_scope.
Local Open Scope list_scope.

(** ** Data model *)

(** [type Attachment struct] (lines 23-35); the two anonymous structs are
    flattened into their fields. *)
Record Attachment : Type := mkAttachment {
  Id : string;
  Type_ : string;
  Status : string;
  Title : string;
  Metadata_Comment : string;
  Metadata_MediaType : string;
  Version_Number : Z
}.

(** [type Attachments struct] (lines 18-21). *)
Record Attachments : Type := mkAttachments {
  Results : list Attachment;
  Size : Z
}.

(** Go's [error] values, by the package that makes them.  [errorString] is
    what [fmt.Errorf] returns for a format without verbs. *)
Inductive error : Type :=
| errorString (msg : string)
| urlError (op url msg : string)
| pathError (op path msg : string)
| jsonError (msg : string)
| transportError (msg : string).

(** A Go result pair [(v, err)]: [Ok v] is [(v, nil)], [Err e] is [(nil, e)]. *)
Inductive result (A : Type) : Type :=
| Ok (a : A)
| Err (err : error).
Arguments Ok {A} a.
Arguments Err {A} err.

(** The error of lines 90, 117 and 232. *)
Definition empty_list : error := errorString "empty list".

(** ** Library functions that are plain computations *)

Module Go.

(** [s[i:]]: the suffix from byte [i], out of range when [i > len(s)]. *)
Definition slice_from (s : string) (i : nat) : option string :=
  if (i <=? String.length s)%nat then Some (substring i (String.length s - i) s)
  else None.

(** [strconv.FormatBool]. *)
Definition FormatBool (b : bool) : string := if b then "true" else "false".

Definition slash : ascii := "/"%char.

Fixpoint drop_slashes (l : list ascii) : list ascii :=
  match l with
  | c :: l' => if Ascii.eqb c slash then drop_slashes l' else l
  | [] => []
  end.

Fixpoint upto_slash (l : list ascii) : list ascii :=
  match l with
  | c :: l' => if Ascii.eqb c slash then [] else c :: upto_slash l'
  | [] => []
  end.

(** [path.Base]: "." for the empty path, trailing slashes removed, then the
    part after the last slash, "/" when nothing is left.  The scan runs on
    the reversed byte list. *)
Definition path_Base (path : string) : string :=
  match path with
  | EmptyString => "."
  | _ =>
      let stripped := drop_slashes (rev (list_ascii_of_string path)) in
      match stripped with
      | [] => "/"
      | _ => string_of_list_ascii (rev (upto_slash stripped))
      end
  end.

Definition is_unreserved (c : ascii) : bool :=
  let n := nat_of_ascii c in
  ((48 <=? n)%nat && (n <=? 57)%nat) || ((65 <=? n)%nat && (n <=? 90)%nat)
  || ((97 <=? n)%nat && (n <=? 122)%nat)
  || Ascii.eqb c "-" || Ascii.eqb c "_" || Ascii.eqb c "." || Ascii.eqb c "~".

Definition upperhex (n : nat) : ascii :=
  nth n (list_ascii_of_string "0123456789ABCDEF") "0"%char.

(** [url.QueryEscape]: unreserved bytes stay, a space becomes [+], every
    other byte becomes [%XX]. *)
Fixpoint QueryEscape (s : string) : string :=
  match s with
  | EmptyString => EmptyString
  | String c s' =>
      if is_unreserved c then String c (QueryEscape s')
      else if Ascii.eqb c " " then String "+" (QueryEscape s')
      else String "%" (String (upperhex (nat_of_ascii c / 16))
                         (String (upperhex (nat_of_ascii c mod 16))
                            (QueryEscape s')))
  end.

(** [url.Values.Encode] of a map with the single key [key] bound to the
    single value [value] (the only map the file builds, lines 102-104). *)
Definition Values_Encode1 (key value : string) : string :=
  QueryEscape key ++ "=" ++ QueryEscape value.

End Go.

(** ** Multipart bodies

    [mime/multipart.Writer] over a [bytes.Buffer].  The body is kept as the
    sequence of parts written so far instead of its byte serialisation.
    Writes into a [bytes.Buffer] do not fail, so the writer's own operations
    always return a nil error; the error tests of the source are kept. *)
Module Multipart.

Inductive Part : Type :=
| FormFile (fieldname filename : string) (content : string)
| FormField (fieldname value : string).

Record Writer : Type := mkWriter {
  Boundary : string;
  Parts : list Part;
  Closed : bool
}.

Definition NewWriter (boundary : string) : Writer :=
  mkWriter boundary [] false.

(** [writer.CreateFormFile(fieldname, filename)]: opens an empty file part. *)
Definition CreateFormFile (w : Writer) (fieldname filename : string)
  : result Writer :=
  Ok (mkWriter (Boundary w) (Parts w ++ [FormFile fieldname filename ""])
        (Closed w)).

(** [part.Write(content)] on the part opened last. *)
Definition write_last (w : Writer) (content : string) : Writer :=
  match rev (Parts w) with
  | FormFile f n c :: before =>
      mkWriter (Boundary w) (rev before ++ [FormFile f n (c ++ content)])
        (Closed w)
  | _ => w
  end.

(** [writer.WriteField(fieldname, value)]. *)
Definition WriteField (w : Writer) (fieldname value : string)
  : result Writer :=
  Ok (mkWriter (Boundary w) (Parts w ++ [FormField fieldname value])
        (Closed w)).

(** [writer.Close()]. *)
Definition Close (w : Writer) : result Writer :=
  Ok (mkWriter (Boundary w) (Parts w) true).

(** [writer.FormDataContentType()]. *)
Definition FormDataContentType (w : Writer) : string :=
  "multipart/form-data; boundary=" ++ Boundary w.

End Multipart.

(** ** Requests and the environment *)

(** [os.FileInfo], of which the file reads [Name()] only. *)
Record FileInfo : Type := mkFileInfo { Name : string }.

(** [*http.Request], with the fields the file sets. *)
Record Request (URL : Type) : Type := mkRequest {
  Method : string;
  ReqURL : URL;
  Header : list (string * string);
  Body : Multipart.Writer
}.
Arguments mkRequest {URL}.
Arguments Method {URL}.
Arguments ReqURL {URL}.
Arguments Header {URL}.
Arguments Body {URL}.

(** What the file calls and does not define.  [World] is the state of
    everything outside the process (remote service, file system, random
    source), [URL] is [*url.URL], [File] is [*os.File]. *)
Record Env (World URL File : Type) : Type := mkEnv {
  (* client.go *)
  client_Endpoint : string;
  client_request :
    string -> string -> string -> string -> World -> result string * World;
  client_sendRequest : Request URL -> World -> result string * World;
  (* net/url *)
  url_ParseRequestURI : string -> result URL;
  url_Parse : string -> result URL;
  url_String : URL -> string;
  url_set_RawQuery : URL -> string -> URL;
  (* encoding/json, at the two target types of the file *)
  json_Unmarshal_Attachments : string -> result Attachments;
  json_Unmarshal_Attachment : string -> result Attachment;
  (* os, io *)
  os_Open : string -> World -> result File * World;
  file_Stat : File -> World -> result FileInfo * World;
  file_Read : File -> World -> result string * World;
  file_Close : File -> World -> World;
  (* crypto/rand, through multipart.NewWriter *)
  rand_Boundary : World -> string * World
}.
Arguments client_Endpoint {World URL File}.
Arguments client_request {World URL File}.
Arguments client_sendRequest {World URL File}.
Arguments url_ParseRequestURI {World URL File}.
Arguments url_Parse {World URL File}.
Arguments url_String {World URL File}.
Arguments url_set_RawQuery {World URL File}.
Arguments json_Unmarshal_Attachments {World URL File}.
Arguments json_Unmarshal_Attachment {World URL File}.
Arguments os_Open {World URL File}.
Arguments file_Stat {World URL File}.
Arguments file_Read {World URL File}.
Arguments file_Close {World URL File}.
Arguments rand_Boundary {World URL File}.

(** One exchange with the transport, as the file starts it. *)
Inductive Event (URL : Type) : Type :=
| ev_request (method url body contentType : string)
| ev_sendRequest (req : Request URL).
Arguments ev_request {URL}.
Arguments ev_sendRequest {URL}.

(** The state the operations thread: the outside world and the log of the
    transport calls made so far, oldest first. *)
Record State (World URL : Type) : Type := mkState {
  world : World;
  wire : list (Event URL)
}.
Arguments mkState {World URL}.
Arguments world {World URL}.
Arguments wire {World URL}.

(** A call either returns or panics. *)
Inductive outcome (A : Type) : Type :=
| Returns (a : A)
| Panics (msg : string).
Arguments Returns {A} a.
Arguments Panics {A} msg.

Definition M (World URL : Type) (A : Type) : Type :=
  State World URL -> outcome A * State World URL.

Definition ret {World URL A} (a : A) : M World URL A :=
  fun st => (Returns a, st).

Definition bind {World URL A B} (m : M World URL A) (k : A -> M World URL B)
  : M World URL B :=
  fun st =>
    match m st with
    | (Returns a, st') => k a st'
    | (Panics msg, st') => (Panics msg, st')
    end.

Definition panic {World URL A} (msg : string) : M World URL A :=
  fun st => (Panics msg, st).

(** [defer f()]: [f] runs on the way out, whether the body returns or
    panics. *)
Definition defer {World URL A} (f : World -> World) (body : M World URL A)
  : M World URL A :=
  fun st =>
    match body st with
    | (o, st') => (o, mkState (f (world st')) (wire st'))
    end.

Declare Scope go_scope.
Delimit Scope go_scope with go.

Notation "x <- m ;; k" := (bind m (fun x => k))
  (at level 100, m at next level, right associativity) : go_scope.

(** [v, err := call(); if err != nil { return nil, err }] for a call with
    effects, and the same for a pure call. *)
Notation "'try' x <- m ;; k" :=
  (bind m (fun r => match r with
                    | Ok x => k
                    | Err err => ret (Err err)
                    end))
  (at level 100, x name, m at next level, right associativity) : go_scope.

Notation "'check' x <- e ;; k" :=
  (match e with
   | Ok x => k
   | Err err => ret (Err err)
   end)
  (at level 100, x name, e at next level, right associativity) : go_scope.

Local Open Scope go_scope.

(** ** The operations of [attachment.go] *)

Section Operations.

Context {World URL File : Type}.
Variable env : Env World URL File.

(** Calls into the world, lifted to the state; the two transport calls log
    themselves. *)
Definition request (method url body contentType : string)
  : M World URL (result string) :=
  fun st =>
    let (r, w) := client_request env method url body contentType (world st) in
    (Returns r,
     mkState w (wire st ++ [ev_request method url body contentType])).

Definition sendRequest (req : Request URL) : M World URL (result string) :=
  fun st =>
    let (r, w) := client_sendRequest env req (world st) in
    (Returns r, mkState w (wire st ++ [ev_sendRequest req])).

Definition lift {A} (f : World -> A * World) : M World URL A :=
  fun st => let (a, w) := f (world st) in (Returns a, mkState w (wire st)).

(** [multipart.NewWriter(body)] draws a random boundary. *)
Definition NewWriter : M World URL Multipart.Writer :=
  b <- lift (rand_Boundary env) ;; ret (Multipart.NewWriter b).

(** [io.Copy(part, file)]: reads the file to its end into the open part. *)
Definition io_Copy (w : Multipart.Writer) (file : File)
  : M World URL (result Multipart.Writer) :=
  r <- lift (file_Read env file) ;;
  match r with
  | Ok content => ret (Ok (Multipart.write_last w content))
  | Err err => ret (Err err)
  end.

(** [http.NewRequest(method, url, body)]: the method is a valid token at both
    call sites; the URL string is parsed again. *)
Definition NewRequest (method url : string) (body : Multipart.Writer)
  : result (Request URL) :=
  match url_Parse env url with
  | Ok u => Ok (mkRequest method u [] body)
  | Err err => Err err
  end.

(** [req.Header.Set(key, value)] on a header without that key. *)
Definition Header_Set (req : Request URL) (key value : string)
  : Request URL :=
  mkRequest (Method req) (ReqURL req) (Header req ++ [(key, value)])
    (Body req).

(** Lines 37-39. *)
Definition newAttachmentEndpoint (contentID : string) : result URL :=
  url_ParseRequestURI env
    (client_Endpoint env ++ "/content/" ++ contentID ++ "/child/attachment").

(** Lines 41-47. *)
Definition attachmentEndpoint (contentID attachmentID : string)
  : result URL :=
  match newAttachmentEndpoint contentID with
  | Ok endpoint =>
      url_ParseRequestURI env (url_String env endpoint ++ "/" ++ attachmentID)
  | Err err => Err err
  end.

(** Lines 49-55. *)
Definition attachmentDataEndpoint (contentID attachmentID : string)
  : result URL :=
  match attachmentEndpoint contentID attachmentID with
  | Ok endpoint => url_ParseRequestURI env (url_String env endpoint ++ "/data")
  | Err err => Err err
  end.

(** Lines 58-70.  The function returns an [error] only: [Ok tt] is [nil]. *)
Definition DeleteAttachment (contentID attachmentID : string)
  : M World URL (result unit) :=
  check endpoint <- attachmentEndpoint contentID attachmentID ;;
  try _res <- request "DELETE" (url_String env endpoint) "" "" ;;
  ret (Ok tt).

(** Lines 73-94. *)
Definition GetAttachment (contentID attachmentID : string)
  : M World URL (result Attachment) :=
  check endpoint <- attachmentEndpoint contentID attachmentID ;;
  try res <- request "GET" (url_String env endpoint) "" "" ;;
  check attachments <- json_Unmarshal_Attachments env res ;;
  match Results attachments with
  | [] => ret (Err empty_list)
  | first :: _ => ret (Ok first)
  end.

(** Lines 97-121. *)
Definition GetAttachmentByFilename (contentID filename : string)
  : M World URL (result Attachment) :=
  check endpoint <- newAttachmentEndpoint contentID ;;
  let data := Go.Values_Encode1 "filename" filename in
  let endpoint := url_set_RawQuery env endpoint data in
  try res <- request "GET" (url_String env endpoint) "" "" ;;
  check attachments <- json_Unmarshal_Attachments env res ;;
  match Results attachments with
  | [] => ret (Err empty_list)
  | first :: _ => ret (Ok first)
  end.

(** Lines 124-179. *)
Definition UpdateAttachment (contentID attachmentID path : string)
    (minorEdit : bool) : M World URL (result Attachment) :=
  writer <- NewWriter ;;
  try file <- lift (os_Open env path) ;;
  defer (file_Close env file) (
    try fi <- lift (file_Stat env file) ;;
    check writer <- Multipart.CreateFormFile writer "file" (Name fi) ;;
    try writer <- io_Copy writer file ;;
    check writer <-
      Multipart.WriteField writer "minorEdit" (Go.FormatBool minorEdit) ;;
    check writer <- Multipart.Close writer ;;
    check endpoint <- attachmentDataEndpoint contentID attachmentID ;;
    check req <- NewRequest "POST" (url_String env endpoint) writer ;;
    let req :=
      Header_Set req "Content-Type" (Multipart.FormDataContentType writer) in
    try res <- sendRequest req ;;
    check attachment <- json_Unmarshal_Attachment env res ;;
    ret (Ok attachment)).

(** Lines 182-236. *)
Definition AddAttachment (contentID path : string) : M World URL (result Attachment) :=
  writer <- NewWriter ;;
  try file <- lift (os_Open env path) ;;
  defer (file_Close env file) (
    try fi <- lift (file_Stat env file) ;;
    check writer <- Multipart.CreateFormFile writer "file" (Name fi) ;;
    try writer <- io_Copy writer file ;;
    check writer <- Multipart.Close writer ;;
    check endpoint <- newAttachmentEndpoint contentID ;;
    check req <- NewRequest "POST" (url_String env endpoint) writer ;;
    let req :=
      Header_Set req "Content-Type" (Multipart.FormDataContentType writer) in
    try res <- sendRequest req ;;
    check attachments <- json_Unmarshal_Attachments env res ;;
    match Results attachments with
    | [] => ret (Err empty_list)
    | first :: _ => ret (Ok first)
    end).

(** [attachment.Id[3:]] of line 248. *)
Definition Id_from_3 (attachment : Attachment) : M World URL string :=
  match Go.slice_from (Id attachment) 3 with
  | Some s => ret s
  | None => panic "slice bounds out of range"
  end.

(** The [for _, f := range files] loop of lines 242-255, with the two
    slices it appends to. *)
Fixpoint AddUpdateAttachments_range (contentID : string) (files : list string)
    (results : list Attachment) (errors : list error)
  : M World URL (list Attachment * list error) :=
  match files with
  | [] => ret (results, errors)
  | f :: files' =>
      let filename := Go.path_Base f in
      looked <- GetAttachmentByFilename contentID filename ;;
      r <- match looked with
           | Err _ => AddAttachment contentID f
           | Ok attachment =>
               id3 <- Id_from_3 attachment ;;
               UpdateAttachment contentID id3 f true
           end ;;
      match r with
      | Ok attachment =>
          AddUpdateAttachments_range contentID files'
            (results ++ [attachment]) errors
      | Err err =>
          AddUpdateAttachments_range contentID files'
            results (errors ++ [err])
      end
  end.

(** Lines 239-257. *)
Definition AddUpdateAttachments (contentID : string) (files : list string)
  : M World URL (list Attachment * list error) :=
  AddUpdateAttachments_range contentID files [] [].

End Operations.

Arguments request {World URL File} env method url body contentType _.
Arguments sendRequest {World URL File} env req _.


(** ** Vocabulary of the statements *)

Section Vocabulary.

Context {World URL File : Type}.
Variable env : Env World URL File.

(** The local file at [path] is opened, described and read to its end
    without error, starting in world [w]: the boundary drawn is [b], the
    handle [file], the name [name], the bytes [content], and the world after
    the last read is [w']. *)
Definition reads_file (path : string) (w : World) (b : string) (file : File)
    (name content : string) (w' : World) : Prop :=
  exists w1 w2 w3,
    rand_Boundary env w = (b, w1) /\
    os_Open env path w1 = (Ok file, w2) /\
    file_Stat env file w2 = (Ok (mkFileInfo name), w3) /\
    file_Read env file w3 = (Ok content, w').

(** The local file at [path] cannot be opened, or described, or read:
    [err] is the error of the failing call and [w'] the world the caller is
    left in (the file closed again when it had been opened). *)
Inductive local_failure (path : string) (w : World) : error -> World -> Prop :=
| open_fails b w1 err w2 :
    rand_Boundary env w = (b, w1) ->
    os_Open env path w1 = (Err err, w2) ->
    local_failure path w err w2
| stat_fails b w1 file w2 err w3 :
    rand_Boundary env w = (b, w1) ->
    os_Open env path w1 = (Ok file, w2) ->
    file_Stat env file w2 = (Err err, w3) ->
    local_failure path w err (file_Close env file w3)
| read_fails b w1 file w2 fi w3 err w4 :
    rand_Boundary env w = (b, w1) ->
    os_Open env path w1 = (Ok file, w2) ->
    file_Stat env file w2 = (Ok fi, w3) ->
    file_Read env file w3 = (Err err, w4) ->
    local_failure path w err (file_Close env file w4).

(** The request an upload hands to [client.sendRequest]: a POST to [u] whose
    body is the file part followed by [fields], closed. *)
Definition upload_request (u : URL) (b name content : string)
    (fields : list Multipart.Part) : Request URL :=
  mkRequest "POST" u
    [("Content-Type", ("multipart/form-data; boundary=" ++ b)%string)]
    (Multipart.mkWriter b (Multipart.FormFile "file" name content :: fields)
       true).

(** What the list-decoding operations make of a response body. *)
Definition first_of_body (res : string) : result Attachment :=
  match json_Unmarshal_Attachments env res with
  | Ok attachments =>
      match Results attachments with
      | [] => Err empty_list
      | first :: _ => Ok first
      end
  | Err err => Err err
  end.

(** The text of the collection endpoint of a content item. *)
Definition collection (contentID : string) : string :=
  client_Endpoint env ++ "/content/" ++ contentID ++ "/child/attachment".

(** [url.ParseRequestURI] accepts [s] and [String()] prints [s] back. *)
Definition canonical (s : string) : bool :=
  match url_ParseRequestURI env s with
  | Ok u => url_String env u =? s
  | Err _ => false
  end.

Definition no_slash (s : string) : bool :=
  forallb (fun c => negb (Ascii.eqb c "/")) (list_ascii_of_string s).

(** An identifier that is one path segment: not empty, no slash. *)
Definition segment (id : string) : bool :=
  negb (id =? "") && no_slash id.

(** Well-formed input of the endpoint builder: both identifiers are path
    segments and the two endpoint texts built from them are canonical. *)
Definition well_formed (contentID attachmentID : string) : bool :=
  segment contentID && segment attachmentID
  && canonical (collection contentID)
  && canonical (collection contentID ++ "/" ++ attachmentID).

(** The URL text [attachmentEndpoint] produces, if any. *)
Definition endpoint_text (contentID attachmentID : string) : option string :=
  match attachmentEndpoint env contentID attachmentID with
  | Ok u => Some (url_String env u)
  | Err _ => None
  end.

(** The same environment with the [size] field of every decoded envelope
    replaced by [size body reported]. *)
Definition with_size (size : string -> Z -> Z) : Env World URL File :=
  mkEnv World URL File
    (client_Endpoint env)
    (client_request env)
    (client_sendRequest env)
    (url_ParseRequestURI env)
    (url_Parse env)
    (url_String env)
    (url_set_RawQuery env)
    (fun body =>
       match json_Unmarshal_Attachments env body with
       | Ok l => Ok (mkAttachments (Results l) (size body (Size l)))
       | Err err => Err err
       end)
    (json_Unmarshal_Attachment env)
    (os_Open env)
    (file_Stat env)
    (file_Read env)
    (file_Close env)
    (rand_Boundary env).

(** The rest of one turn of the loop of [AddUpdateAttachments], once the
    create or update call [upload] of the file has been chosen. *)
Definition record_and_continue (contentID : string) (files : list string)
    (results : list Attachment) (errors : list error)
    (upload : M World URL (result Attachment))
  : M World URL (list Attachment * list error) :=
  r <- upload ;;
  match r with
  | Ok attachment =>
      AddUpdateAttachments_range env contentID files
        (results ++ [attachment]) errors
  | Err err =>
      AddUpdateAttachments_range env contentID files
        results (errors ++ [err])
  end.

(** The rule of the specification for the lookup step, on the batch of the
    one file [f]: a lookup error other than "empty list" is not recovered
    into a creation and is the error the batch reports for the file. *)
Definition surfaces_lookup_error (contentID f : string)
    (st : State World URL) : Prop :=
  forall e st1,
    GetAttachmentByFilename env contentID (Go.path_Base f) st
      = (Returns (Err e), st1) ->
    e <> empty_list ->
    exists st',
      AddUpdateAttachments env contentID [f] st = (Returns ([], [e]), st')
      /\ wire st' = wire st1.

(** The rule of the specification for an empty content identifier: the
    call returns an error and leaves the log of transport calls as it
    was. *)
Definition rejected_unsent {A} (call : M World URL (result A))
    (st : State World URL) : Prop :=
  exists e st', call st = (Returns (Err e), st') /\ wire st' = wire st.

(** A call that returns in every state.  The five operations do; only the
    slice of line 248 can panic. *)
Definition returns {A} (m : M World URL A) : Prop :=
  forall st, exists a st', m st = (Returns a, st').

End Vocabulary.

(** ** The batch, file by file *)

Section Outcomes.

Context {World URL File : Type}.
Variable env : Env World URL File.

(** Lines 243-249: what one turn of the loop does for the file [f], up to
    the test of line 250. *)
Definition upsert (contentID f : string) : M World URL (result Attachment) :=
  looked <- GetAttachmentByFilename env contentID (Go.path_Base f) ;;
  match looked with
  | Err _ => AddAttachment env contentID f
  | Ok attachment =>
      id3 <- Id_from_3 attachment ;;
      UpdateAttachment env contentID id3 f true
  end.

(** The outcomes of the files of a batch, one after the other. *)
Fixpoint outcomes (contentID : string) (files : list string)
  : M World URL (list (result Attachment)) :=
  match files with
  | [] => ret []
  | f :: files' =>
      r <- upsert contentID f ;;
      rest <- outcomes contentID files' ;;
      ret (r :: rest)
  end.

Fixpoint successes (l : list (result Attachment)) : list Attachment :=
  match l with
  | [] => []
  | Ok a :: l' => a :: successes l'
  | Err _ :: l' => successes l'
  end.

Fixpoint failures (l : list (result Attachment)) : list error :=
  match l with
  | [] => []
  | Ok _ :: l' => failures l'
  | Err err :: l' => err :: failures l'
  end.

(** The log of transport calls of [st'] is the log of [st] and at most [n]
    further calls. *)
Definition sent_at_most (n : nat) (st st' : State World URL) : Prop :=
  exists more, wire st' = wire st ++ more /\ length more <= n.

End Outcomes.

(** ** A scripted environment

    An instance of [Env] for closed examples: a service that answers from a
    fixed table of routes, a disk given as a table of paths (the world
    counts the files that are open), and URLs kept as the text before the
    query and the query.  It covers the plain
    [http(s)://...] and [/...] strings of the examples below, on which
    [net/url] parses and prints the same text. *)
Module Sim.

Record URL : Type := mkURL {
  Prefix : string;
  ForceQuery : bool;
  RawQuery : string
}.

Definition String_ (u : URL) : string :=
  if ForceQuery u || negb (RawQuery u =? "")
  then Prefix u ++ "?" ++ RawQuery u
  else Prefix u.

Fixpoint cut_query (s : string) : string * option string :=
  match s with
  | EmptyString => (EmptyString, None)
  | String c s' =>
      if Ascii.eqb c "?" then (EmptyString, Some s')
      else let (p, q) := cut_query s' in (String c p, q)
  end.

Definition is_ctl (c : ascii) : bool :=
  (nat_of_ascii c <? 32)%nat || (nat_of_ascii c =? 127)%nat.

Definition has_ctl (s : string) : bool :=
  existsb is_ctl (list_ascii_of_string s).

Definition split (s : string) : URL :=
  match cut_query s with
  | (p, None) => mkURL p false ""
  | (p, Some q) => mkURL p (q =? "") q
  end.

Definition Parse (s : string) : result URL :=
  if has_ctl s
  then Err (urlError "parse" s "net/url: invalid control character in URL")
  else Ok (split s).

Definition ParseRequestURI (s : string) : result URL :=
  if s =? "" then Err (urlError "parse" s "empty url")
  else if String.prefix "/" s || String.prefix "http://" s
          || String.prefix "https://" s
       then Parse s
       else Err (urlError "parse" s "invalid URI for request").

Definition set_RawQuery (u : URL) (q : string) : URL :=
  mkURL (Prefix u) (ForceQuery u) q.

(** JSON text of the two wire shapes, for values whose strings need no
    escaping. *)
Definition dq : string := String (ascii_of_nat 34) EmptyString.
Definition quoted (s : string) : string := dq ++ s ++ dq.

Definition decimal (z : Z) : string :=
  NilZero.string_of_int (Z.to_int z).

Definition json_Attachment (a : Attachment) : string :=
  "{" ++ quoted "id" ++ ":" ++ quoted (Id a)
  ++ "," ++ quoted "type" ++ ":" ++ quoted (Type_ a)
  ++ "," ++ quoted "status" ++ ":" ++ quoted (Status a)
  ++ "," ++ quoted "title" ++ ":" ++ quoted (Title a)
  ++ "," ++ quoted "metadata" ++ ":{"
  ++ quoted "comment" ++ ":" ++ quoted (Metadata_Comment a)
  ++ "," ++ quoted "mediaType" ++ ":" ++ quoted (Metadata_MediaType a)
  ++ "}," ++ quoted "version" ++ ":{"
  ++ quoted "number" ++ ":" ++ decimal (Version_Number a) ++ "}}".

Definition json_Attachments (l : Attachments) : string :=
  "{" ++ quoted "results" ++ ":["
  ++ String.concat "," (map json_Attachment (Results l))
  ++ "]," ++ quoted "size" ++ ":" ++ decimal (Size l) ++ "}".

Fixpoint assoc {A} (key : string) (table : list (string * A)) : option A :=
  match table with
  | [] => None
  | (k, v) :: table' => if k =? key then Some v else assoc key table'
  end.

(** What a scenario fixes: the base URL of the client, the answers of the
    service by method and URL, the files on disk, and the values the
    service's bodies stand for. *)
Record Script : Type := mkScript {
  base : string;
  routes : list (string * result string);
  disk : list (string * string);
  lists : list Attachments;
  objects : list Attachment;
  boundary : string
}.

Definition route (method url : string) : string := method ++ " " ++ url.

Definition answer (sc : Script) (method url : string) : result string :=
  match assoc (route method url) (routes sc) with
  | Some r => r
  | None => Err (transportError "404 Not Found")
  end.

Definition decode {A} (encode : A -> string) (known : list A) (body : string)
  : result A :=
  match find (fun v => encode v =? body) known with
  | Some v => Ok v
  | None => Err (jsonError "invalid character")
  end.

Definition open (sc : Script) (path : string) : result string :=
  match assoc path (disk sc) with
  | Some _ => Ok path
  | None => Err (pathError "open" path "no such file or directory")
  end.

Definition read (sc : Script) (file : string) : result string :=
  match assoc file (disk sc) with
  | Some content => Ok content
  | None => Err (pathError "read" file "file already closed")
  end.

Definition env (sc : Script) : Env nat URL string :=
  mkEnv nat URL string
    (base sc)
    (fun method url _ _ w => (answer sc method url, w))
    (fun req w => (answer sc (Method req) (String_ (ReqURL req)), w))
    ParseRequestURI
    Parse
    String_
    set_RawQuery
    (decode json_Attachments (lists sc))
    (decode json_Attachment (objects sc))
    (fun path w =>
       match open sc path with
       | Ok file => (Ok file, S w)
       | Err err => (Err err, w)
       end)
    (fun file w => (Ok (mkFileInfo (Go.path_Base file)), w))
    (fun file w => (read sc file, w))
    (fun _ w => pred w)
    (fun w => (boundary sc, w)).

(** Nothing sent yet, no file open. *)
Definition start : State nat URL := mkState 0 [].

(** The attachment of the scenarios of the specification, and what the
    service answers after an update of it. *)
Definition a_png : Attachment :=
  mkAttachment "att123456" "attachment" "current" "a.png" "" "image/png" 1.

Definition a_png_v2 : Attachment :=
  mkAttachment "att123456" "attachment" "current" "a.png" "" "image/png" 2.

Definition short_id : Attachment :=
  mkAttachment "ab" "attachment" "current" "a.png" "" "image/png" 1.

Definition api : string := "https://wiki.example.com/rest/api".

Definition lookup_a_png : string :=
  route "GET" (api ++ "/content/123/child/attachment?filename=a.png").

Definition on_disk : list (string * string) := [("docs/a.png", "PNG-DATA")].

(** Content "123" already has [a.png]. *)
Definition has_a_png : Script :=
  mkScript api
    [ (lookup_a_png, Ok (json_Attachments (mkAttachments [a_png] 1)));
      (route "GET" (api ++ "/content/123/child/attachment/att123456"),
       Ok (json_Attachments (mkAttachments [a_png] 1)));
      (route "POST" (api ++ "/content/123/child/attachment/123456/data"),
       Ok (json_Attachment a_png_v2)) ]
    on_disk
    [mkAttachments [a_png] 1]
    [a_png_v2]
    "b0".

(** Content "123" has no attachment yet. *)
Definition has_nothing : Script :=
  mkScript api
    [ (lookup_a_png, Ok (json_Attachments (mkAttachments [] 0)));
      (route "POST" (api ++ "/content/123/child/attachment"),
       Ok (json_Attachments (mkAttachments [a_png] 1))) ]
    on_disk
    [mkAttachments [] 0; mkAttachments [a_png] 1]
    []
    "b0".

(** The lookup is answered with an attachment whose id is two bytes long. *)
Definition has_short_id : Script :=
  mkScript api
    [ (lookup_a_png, Ok (json_Attachments (mkAttachments [short_id] 1))) ]
    on_disk
    [mkAttachments [short_id] 1]
    []
    "b0".

(** The lookup fails in the transport; uploads go through. *)
Definition lookup_unavailable : Script :=
  mkScript api
    [ (lookup_a_png, Err (transportError "503 Service Unavailable"));
      (route "POST" (api ++ "/content/123/child/attachment"),
       Ok (json_Attachments (mkAttachments [a_png] 1))) ]
    on_disk
    [mkAttachments [a_png] 1]
    []
    "b0".

(** The exchanges of the scenarios. *)
Definition sent_lookup : Event URL :=
  ev_request "GET" (api ++ "/content/123/child/attachment?filename=a.png")
    "" "".

Definition sent_update : Request URL :=
  upload_request
    (mkURL (api ++ "/content/123/child/attachment/123456/data") false "")
    "b0" "a.png" "PNG-DATA" [Multipart.FormField "minorEdit" "true"].

Definition sent_create : Request URL :=
  upload_request
    (mkURL (api ++ "/content/123/child/attachment") false "")
    "b0" "a.png" "PNG-DATA" [].

(** A client configured with a base that has no scheme. *)
Definition no_scheme : Script :=
  mkScript "wiki.example.com/rest/api" [] on_disk [] [] "b0".

End Sim.

(** Further scenarios. *)
Module Cases.

Import Sim.

(** The service deletes [att123456] and answers with a body nobody reads;
    the lookup of [a.png] is answered with text that is not JSON. *)
Definition deletes : Script :=
  mkScript api
    [ (route "DELETE" (api ++ "/content/123/child/attachment/att123456"),
       Ok "<html>gone</html>");
      (lookup_a_png, Ok "<html>busy</html>");
      (route "GET" (api ++ "/content/123/child/attachment/att123456"),
       Ok "<html>busy</html>") ]
    on_disk [] [] "b0".

(** The service has [a.png]; uploads are refused. *)
Definition refuses_uploads : Script :=
  mkScript api
    [ (lookup_a_png, Ok (json_Attachments (mkAttachments [a_png] 1)));
      (route "POST" (api ++ "/content/123/child/attachment/123456/data"),
       Err (transportError "403 Forbidden"));
      (route "POST" (api ++ "/content/123/child/attachment"),
       Err (transportError "403 Forbidden")) ]
    on_disk
    [mkAttachments [a_png] 1]
    []
    "b0".

Definition sent_delete : Event URL :=
  ev_request "DELETE" (api ++ "/content/123/child/attachment/att123456")
    "" "".

End Cases.

(** Proof steps for running the operations. *)

Ltac unfold_ops :=
  unfold DeleteAttachment, GetAttachment, GetAttachmentByFilename,
    UpdateAttachment, AddAttachment, NewWriter, io_Copy, NewRequest,
    Header_Set, request, sendRequest, lift, defer, bind, ret, panic,
    Multipart.CreateFormFile, Multipart.WriteField, Multipart.Close,
    Multipart.NewWriter, Multipart.FormDataContentType,
    Multipart.write_last.

(** Case analysis on whatever the goal next branches on. *)
Ltac split_next :=
  match goal with
  | |- context [match ?x with _ => _ end] =>
      lazymatch x with
      | context [match _ with _ => _ end] => fail
      | _ => let E := fresh "E" in destruct x eqn:E
      end
  end.

(** ** Strings *)

Local Open Scope string_scope.

Lemma append_cancel_l (p a b : string) : p ++ a = p ++ b -> a = b.
Proof.
  induction p as [|c p IH]; simpl; intros H.
  - exact H.
  - injection H as H. auto.
Qed.

Lemma append_assoc (a b c : string) : (a ++ b) ++ c = a ++ b ++ c.
Proof.
  induction a as [|x a IH]; simpl; [reflexivity | now rewrite IH].
Qed.

Lemma length_append (a b : string) :
  String.length (a ++ b) = String.length a + String.length b.
Proof.
  induction a as [|x a IH]; simpl; [reflexivity | now rewrite IH].
Qed.

Lemma substring_whole (s : string) : substring 0 (String.length s) s = s.
Proof.
  induction s as [|c s IH]; simpl; [reflexivity | now rewrite IH].
Qed.

Lemma substring_skip (p s : string) (n : nat) :
  substring (String.length p) n (p ++ s) = substring 0 n s.
Proof.
  induction p as [|c p IH]; simpl; [reflexivity | exact IH].
Qed.

(** [s[3:]] of a string that starts with three bytes is what follows them. *)
Lemma slice_from_prefix (p s : string) :
  Go.slice_from (p ++ s) (String.length p) = Some s.
Proof.
  unfold Go.slice_from. rewrite length_append.
  replace (String.length p <=? String.length p + String.length s)%nat
    with true by (symmetry; apply Nat.leb_le; lia).
  replace (String.length p + String.length s - String.length p)
    with (String.length s) by lia.
  now rewrite substring_skip, substring_whole.
Qed.

Lemma slice_from_short (s : string) (i : nat) :
  String.length s < i -> Go.slice_from s i = None.
Proof.
  intros H. unfold Go.slice_from.
  replace (i <=? String.length s)%nat with false; [reflexivity|].
  symmetry. apply Nat.leb_gt. exact H.
Qed.

Lemma slice_from_defined (s : string) (i : nat) :
  (exists t, Go.slice_from s i = Some t) <-> i <= String.length s.
Proof.
  unfold Go.slice_from. split.
  - intros [t H]. destruct (Nat.leb_spec i (String.length s)); [assumption|].
    discriminate H.
  - intros H. apply Nat.leb_le in H. rewrite H. eauto.
Qed.

(** Two texts that agree up to their first slash. *)
Lemma first_slash_split (a b r s : string) :
  no_slash a = true -> no_slash b = true ->
  a ++ String "/" r = b ++ String "/" s -> a = b /\ r = s.
Proof.
  revert b. unfold no_slash.
  induction a as [|x a IH]; intros [|y b]; simpl; intros Ha Hb H.
  - injection H as H. auto.
  - injection H as Hy _. subst y. discriminate Hb.
  - injection H as Hx _. subst x. discriminate Ha.
  - injection H as Hxy H. subst y.
    apply andb_true_iff in Ha as [_ Ha]. apply andb_true_iff in Hb as [_ Hb].
    destruct (IH b Ha Hb H) as [-> ->]. auto.
Qed.

(** ** Running the operations *)

Section Runs.

Context {World URL File : Type}.
Variable env : Env World URL File.

Lemma attachmentEndpoint_rejected (C A : string) (e : error) :
  newAttachmentEndpoint env C = Err e -> attachmentEndpoint env C A = Err e.
Proof. intros H. unfold attachmentEndpoint. now rewrite H. Qed.

Lemma attachmentDataEndpoint_rejected (C A : string) (e : error) :
  newAttachmentEndpoint env C = Err e ->
  attachmentDataEndpoint env C A = Err e.
Proof.
  intros H. unfold attachmentDataEndpoint.
  now rewrite (attachmentEndpoint_rejected C A e H).
Qed.

(** An update whose local file is read sends one request and decodes the
    answer as one attachment. *)
Lemma UpdateAttachment_sent C A path minorEdit st b file name content w u u' r w' :
  reads_file env path (world st) b file name content w ->
  attachmentDataEndpoint env C A = Ok u ->
  url_Parse env (url_String env u) = Ok u' ->
  let req :=
    upload_request u' b name content
      [Multipart.FormField "minorEdit" (Go.FormatBool minorEdit)] in
  client_sendRequest env req w = (r, w') ->
  UpdateAttachment env C A path minorEdit st =
    (Returns match r with
             | Ok res => json_Unmarshal_Attachment env res
             | Err err => Err err
             end,
     mkState (file_Close env file w') (wire st ++ [ev_sendRequest req])%list).
Proof.
  intros (w1 & w2 & w3 & Hb & Ho & Hs & Hr) Hu Hp req Hsend.
  unfold_ops. rewrite Hb. simpl. rewrite Ho. simpl. rewrite Hs. simpl.
  rewrite Hr. simpl. rewrite Hu, Hp. simpl.
  subst req. unfold upload_request in *. simpl in Hsend |- *.
  rewrite Hsend. simpl.
  destruct r as [res|err]; simpl; [|reflexivity].
  destruct (json_Unmarshal_Attachment env res); reflexivity.
Qed.

(** A creation whose local file is read sends one request and decodes the
    answer as a list. *)
Lemma AddAttachment_sent C path st b file name content w u u' r w' :
  reads_file env path (world st) b file name content w ->
  newAttachmentEndpoint env C = Ok u ->
  url_Parse env (url_String env u) = Ok u' ->
  let req := upload_request u' b name content [] in
  client_sendRequest env req w = (r, w') ->
  AddAttachment env C path st =
    (Returns match r with
             | Ok res => first_of_body env res
             | Err err => Err err
             end,
     mkState (file_Close env file w') (wire st ++ [ev_sendRequest req])%list).
Proof.
  intros (w1 & w2 & w3 & Hb & Ho & Hs & Hr) Hu Hp req Hsend.
  unfold_ops. rewrite Hb. simpl. rewrite Ho. simpl. rewrite Hs. simpl.
  rewrite Hr. simpl. rewrite Hu, Hp. simpl.
  subst req. unfold upload_request in *. simpl in Hsend |- *.
  rewrite Hsend. simpl. unfold first_of_body.
  destruct r as [res|err]; simpl; [|reflexivity].
  destruct (json_Unmarshal_Attachments env res) as [l|]; [|reflexivity].
  destruct (Results l); reflexivity.
Qed.

End Runs.

(** ** Lookups and uploads *)

Section Claims.

Context {World URL File : Type}.
Variable env : Env World URL File.

(** C4: when the transport answers the GET with a body that decodes,
    [GetAttachment] returns the first element of the decoded results as it
    is, and the error "empty list" (the specification's NotFound) when
    there is none; [GetAttachmentByFilename] follows the same rule on the
    endpoint that carries the [filename] query. *)
Theorem C4_get_returns_first_or_empty_list
    (C : string) (st : State World URL) :
  (forall A u res w attachments,
     attachmentEndpoint env C A = Ok u ->
     client_request env "GET" (url_String env u) "" "" (world st)
       = (Ok res, w) ->
     json_Unmarshal_Attachments env res = Ok attachments ->
     GetAttachment env C A st =
       (Returns match Results attachments with
                | [] => Err (errorString "empty list")
                | first :: _ => Ok first
                end,
        mkState w
          (wire st ++ [ev_request "GET" (url_String env u) "" ""])%list))
  /\
  (forall filename u res w attachments,
     newAttachmentEndpoint env C = Ok u ->
     let url :=
       url_String env
         (url_set_RawQuery env u (Go.Values_Encode1 "filename" filename)) in
     client_request env "GET" url "" "" (world st) = (Ok res, w) ->
     json_Unmarshal_Attachments env res = Ok attachments ->
     GetAttachmentByFilename env C filename st =
       (Returns match Results attachments with
                | [] => Err (errorString "empty list")
                | first :: _ => Ok first
                end,
        mkState w (wire st ++ [ev_request "GET" url "" ""])%list)).
Proof.
  split.
  - intros A u res w l Hu Hreq Hjson. unfold_ops.
    rewrite Hu, Hreq. simpl. rewrite Hjson.
    destruct (Results l); reflexivity.
  - intros filename u res w l Hu url Hreq Hjson. unfold_ops.
    rewrite Hu. fold url. rewrite Hreq. simpl. rewrite Hjson.
    destruct (Results l); reflexivity.
Qed.

(** C6: after a successful exchange with body [res], [UpdateAttachment]
    returns [res] decoded as one attachment object, whereas [AddAttachment]
    decodes [res] as a results envelope, fails with "empty list" when the
    results are empty and returns their first element otherwise. *)
Theorem C6_update_decodes_object_add_decodes_list
    (C path : string) (st : State World URL)
    (b : string) (file : File) (name content : string) (w : World) :
  reads_file env path (world st) b file name content w ->
  (forall A minorEdit u u' res w',
     attachmentDataEndpoint env C A = Ok u ->
     url_Parse env (url_String env u) = Ok u' ->
     let req :=
       upload_request u' b name content
         [Multipart.FormField "minorEdit" (Go.FormatBool minorEdit)] in
     client_sendRequest env req w = (Ok res, w') ->
     UpdateAttachment env C A path minorEdit st =
       (Returns (json_Unmarshal_Attachment env res),
        mkState (file_Close env file w')
          (wire st ++ [ev_sendRequest req])%list))
  /\
  (forall u u' res w',
     newAttachmentEndpoint env C = Ok u ->
     url_Parse env (url_String env u) = Ok u' ->
     let req := upload_request u' b name content [] in
     client_sendRequest env req w = (Ok res, w') ->
     AddAttachment env C path st =
       (Returns match json_Unmarshal_Attachments env res with
                | Ok attachments =>
                    match Results attachments with
                    | [] => Err (errorString "empty list")
                    | first :: _ => Ok first
                    end
                | Err err => Err err
                end,
        mkState (file_Close env file w')
          (wire st ++ [ev_sendRequest req])%list)).
Proof.
  intros Hfile. split.
  - intros A minorEdit u u' res w' Hu Hp req Hsend.
    exact (UpdateAttachment_sent env C A path minorEdit st b file name
             content w u u' (Ok res) w' Hfile Hu Hp Hsend).
  - intros u u' res w' Hu Hp req Hsend.
    exact (AddAttachment_sent env C path st b file name content w u u'
             (Ok res) w' Hfile Hu Hp Hsend).
Qed.

(** C7: when the local file cannot be opened (or described, or read),
    [UpdateAttachment] and [AddAttachment] return the error of that local
    call and the log of transport calls is what it was: nothing was sent. *)
Theorem C7_local_failure_sends_nothing
    (C A path : string) (minorEdit : bool) (st : State World URL)
    (err : error) (w : World) :
  local_failure env path (world st) err w ->
  UpdateAttachment env C A path minorEdit st
    = (Returns (Err err), mkState w (wire st))
  /\ AddAttachment env C path st = (Returns (Err err), mkState w (wire st)).
Proof.
  intros H. destruct H as [b w1 e w2 Hb Ho | b w1 file w2 e w3 Hb Ho Hs
                          | b w1 file w2 fi w3 e w4 Hb Ho Hs Hr];
    split; unfold_ops; rewrite Hb; simpl; rewrite Ho; simpl;
    try reflexivity; rewrite Hs; simpl; try reflexivity;
    rewrite Hr; reflexivity.
Qed.

(** C9: replacing the reported [size] of every decoded envelope by any
    other value changes nothing in what [GetAttachment],
    [GetAttachmentByFilename] and [AddAttachment] return or do: the
    decision reads the results sequence only. *)
Theorem C9_size_field_is_ignored
    (size : string -> Z -> Z) (C A filename path : string)
    (st : State World URL) :
  GetAttachment (with_size env size) C A st = GetAttachment env C A st
  /\ GetAttachmentByFilename (with_size env size) C filename st
     = GetAttachmentByFilename env C filename st
  /\ AddAttachment (with_size env size) C path st = AddAttachment env C path st.
Proof.
  repeat split.
  - unfold_ops. unfold attachmentEndpoint, newAttachmentEndpoint. simpl.
    repeat (split_next; simpl; try reflexivity).
  - unfold_ops. unfold newAttachmentEndpoint. simpl.
    repeat (split_next; simpl; try reflexivity).
  - unfold_ops. unfold newAttachmentEndpoint. simpl.
    repeat (split_next; simpl; try reflexivity).
Qed.

End Claims.

(** ** The endpoint builder *)

Section Endpoints.

Context {World URL File : Type}.
Variable env : Env World URL File.

Lemma canonical_parse (s : string) :
  canonical env s = true ->
  exists u, url_ParseRequestURI env s = Ok u /\ url_String env u = s.
Proof.
  unfold canonical. destruct (url_ParseRequestURI env s) as [u|e].
  - intros H. apply String.eqb_eq in H. eauto.
  - discriminate.
Qed.

Lemma attachmentEndpoint_canonical (C A : string) :
  canonical env (collection env C) = true ->
  canonical env (collection env C ++ "/" ++ A) = true ->
  exists u, attachmentEndpoint env C A = Ok u
            /\ url_String env u = collection env C ++ "/" ++ A.
Proof.
  intros H1 H2.
  destruct (canonical_parse _ H1) as (u1 & Hp1 & Hs1).
  destruct (canonical_parse _ H2) as (u2 & Hp2 & Hs2).
  exists u2. unfold attachmentEndpoint, newAttachmentEndpoint.
  fold (collection env C). rewrite Hp1, Hs1. auto.
Qed.

Lemma attachmentDataEndpoint_canonical (C A : string) :
  canonical env (collection env C) = true ->
  canonical env (collection env C ++ "/" ++ A) = true ->
  canonical env (collection env C ++ "/" ++ A ++ "/data") = true ->
  exists u, attachmentDataEndpoint env C A = Ok u
            /\ url_String env u = collection env C ++ "/" ++ A ++ "/data".
Proof.
  intros H1 H2 H3.
  destruct (attachmentEndpoint_canonical C A H1 H2) as (u2 & Hp2 & Hs2).
  destruct (canonical_parse _ H3) as (u3 & Hp3 & Hs3).
  exists u3. unfold attachmentDataEndpoint. rewrite Hp2, Hs2.
  rewrite !append_assoc. simpl. auto.
Qed.

Lemma well_formed_endpoint (C A : string) :
  well_formed env C A = true ->
  endpoint_text env C A = Some (collection env C ++ "/" ++ A).
Proof.
  unfold well_formed. intros H.
  apply andb_true_iff in H as [H H2]. apply andb_true_iff in H as [_ H1].
  destruct (attachmentEndpoint_canonical C A H1 H2) as (u & Hu & Hs).
  unfold endpoint_text. now rewrite Hu, Hs.
Qed.

(** C8: on well-formed inputs the endpoint builder produces the text
    [{base}/content/{C}/child/attachment/{A}], and two distinct well-formed
    pairs of identifiers never produce the same URL. *)
Theorem C8_endpoint_builder_injective (C1 A1 C2 A2 : string) :
  well_formed env C1 A1 = true ->
  well_formed env C2 A2 = true ->
  (C1, A1) <> (C2, A2) ->
  endpoint_text env C1 A1
    = Some (client_Endpoint env ++ "/content/" ++ C1 ++ "/child/attachment"
              ++ "/" ++ A1)
  /\ endpoint_text env C2 A2
    = Some (client_Endpoint env ++ "/content/" ++ C2 ++ "/child/attachment"
              ++ "/" ++ A2)
  /\ endpoint_text env C1 A1 <> endpoint_text env C2 A2.
Proof.
  intros W1 W2 Hne.
  pose proof (well_formed_endpoint C1 A1 W1) as E1.
  pose proof (well_formed_endpoint C2 A2 W2) as E2.
  unfold collection in E1, E2. rewrite !append_assoc in E1, E2.
  split; [exact E1|]. split; [exact E2|].
  rewrite E1, E2. intros H. injection H as H.
  apply append_cancel_l in H. apply (append_cancel_l "/content/") in H.
  unfold well_formed, segment in W1, W2.
  repeat match goal with
         | W : _ && _ = true |- _ => apply andb_true_iff in W as [? ?]
         end.
  apply first_slash_split in H; [|assumption|assumption].
  destruct H as [HC HA]. apply (append_cancel_l "child/attachment/") in HA.
  apply Hne. now subst.
Qed.

End Endpoints.

(** ** The reconciler *)

Section Reconciler.

Context {World URL File : Type}.
Variable env : Env World URL File.

Lemma GetAttachmentByFilename_returns (C filename : string) :
  returns (GetAttachmentByFilename env C filename).
Proof.
  intros st. unfold_ops.
  repeat (split_next; simpl); eauto.
Qed.

Lemma AddAttachment_returns (C path : string) :
  returns (AddAttachment env C path).
Proof.
  intros st. unfold_ops.
  repeat (split_next; simpl); eauto.
Qed.

Lemma UpdateAttachment_returns (C A path : string) (minorEdit : bool) :
  returns (UpdateAttachment env C A path minorEdit).
Proof.
  intros st. unfold_ops.
  repeat (split_next; simpl); eauto.
Qed.

(** A lookup that succeeds returns the head of a decoded envelope. *)
Lemma GetAttachmentByFilename_found (C filename : string) st a st' :
  GetAttachmentByFilename env C filename st = (Returns (Ok a), st') ->
  exists res l rest,
    json_Unmarshal_Attachments env res = Ok l /\ Results l = a :: rest.
Proof.
  unfold_ops.
  destruct (newAttachmentEndpoint env C) as [u|]; [|discriminate].
  destruct (client_request env _ _ _ _ _) as [[res|] w]; simpl;
    [|discriminate].
  destruct (json_Unmarshal_Attachments env res) as [l|] eqn:E;
    [|discriminate].
  destruct (Results l) as [|x rest] eqn:R; [discriminate|].
  intros H. injection H as H _. subst x. eauto.
Qed.

Lemma range_step (C f : string) (files : list string) rs es st :
  AddUpdateAttachments_range env C (f :: files) rs es st =
    match GetAttachmentByFilename env C (Go.path_Base f) st with
    | (Returns (Err _), st1) =>
        record_and_continue env C files rs es (AddAttachment env C f) st1
    | (Returns (Ok attachment), st1) =>
        match Go.slice_from (Id attachment) 3 with
        | Some id3 =>
            record_and_continue env C files rs es
              (UpdateAttachment env C id3 f true) st1
        | None => (Panics "slice bounds out of range", st1)
        end
    | (Panics msg, st1) => (Panics msg, st1)
    end.
Proof.
  simpl. unfold record_and_continue, bind at 1.
  destruct (GetAttachmentByFilename env C (Go.path_Base f) st)
    as [[[a|e]|msg] st1]; try reflexivity.
  unfold bind at 1. unfold bind at 1. unfold Id_from_3.
  destruct (Go.slice_from (Id a) 3); reflexivity.
Qed.

(** Every file the loop gets through adds one entry to one of the lists. *)
Lemma range_one_outcome_per_file (C : string) (files : list string) :
  forall rs es st rs' es' st',
    AddUpdateAttachments_range env C files rs es st
      = (Returns (rs', es'), st') ->
    length rs' + length es' = length files + (length rs + length es).
Proof.
  induction files as [|f files IH]; intros rs es st rs' es' st' H.
  - simpl in H. unfold ret in H. injection H as -> -> _. reflexivity.
  - rewrite range_step in H.
    assert (K : forall up st1,
               record_and_continue env C files rs es up st1
                 = (Returns (rs', es'), st') ->
               length rs' + length es'
                 = length (f :: files) + (length rs + length es)).
    { intros up st1 Hc. unfold record_and_continue, bind in Hc.
      destruct (up st1) as [[[a|e]|msg] st2]; [| |discriminate];
        apply IH in Hc; rewrite Hc, length_app; simpl; lia. }
    destruct (GetAttachmentByFilename env C (Go.path_Base f) st)
      as [[[a|e]|msg] st1]; [| |discriminate].
    + destruct (Go.slice_from (Id a) 3); [|discriminate]. eauto.
    + eauto.
Qed.

(** When every attachment the decoder can put at the head of an envelope
    has an id of three bytes or more, the batch returns, with one outcome
    for each file. *)
Lemma batch_completes_on_long_ids (C : string) (files : list string) :
  (forall res l a rest,
     json_Unmarshal_Attachments env res = Ok l -> Results l = a :: rest ->
     3 <= String.length (Id a)) ->
  forall st, exists rs es st',
    AddUpdateAttachments env C files st = (Returns (rs, es), st')
    /\ length rs + length es = length files.
Proof.
  intros Hlong st.
  assert (G : forall fs rs es st0, exists rs' es' st',
             AddUpdateAttachments_range env C fs rs es st0
               = (Returns (rs', es'), st')).
  { induction fs as [|f fs IH]; intros rs es st0.
    - simpl. unfold ret. eauto.
    - rewrite range_step.
      assert (K : forall up, returns up -> forall st1, exists rs' es' st',
                 record_and_continue env C fs rs es up st1
                   = (Returns (rs', es'), st')).
      { intros up Hup st1. unfold record_and_continue, bind.
        destruct (Hup st1) as (r & st2 & ->). destruct r; apply IH. }
      destruct (GetAttachmentByFilename_returns C (Go.path_Base f) st0)
        as (r & st1 & Hlook).
      rewrite Hlook. destruct r as [a|e].
      + destruct (GetAttachmentByFilename_found _ _ _ _ _ Hlook)
          as (res & l & rest & Hj & Hr).
        pose proof (Hlong res l a rest Hj Hr) as Hlen.
        apply slice_from_defined in Hlen as [id3 ->].
        apply K, UpdateAttachment_returns.
      + apply K, AddAttachment_returns. }
  destruct (G files [] [] st) as (rs & es & st' & H).
  exists rs, es, st'. split; [exact H|].
  apply range_one_outcome_per_file in H. simpl in H. lia.
Qed.

(** C2, as the code has it: whatever the error of the filename lookup (the
    "empty list" of an empty result set, or a transport, decoding or
    endpoint error), the file goes to [AddAttachment]; the lookup error is
    dropped and the outcome recorded for the file is that of the
    creation. *)
Theorem C2_any_lookup_failure_routes_to_create
    (C f : string) (files : list string)
    (rs : list Attachment) (es : list error) (st st1 : State World URL)
    (e : error) :
  GetAttachmentByFilename env C (Go.path_Base f) st = (Returns (Err e), st1) ->
  AddUpdateAttachments_range env C (f :: files) rs es st
    = record_and_continue env C files rs es (AddAttachment env C f) st1.
Proof.
  intros H. rewrite range_step, H. reflexivity.
Qed.

(** C3: when the filename lookup finds an attachment whose id is a
    three-byte prefix followed by [A], the file goes to
    [UpdateAttachment C A f true]; and when the endpoint texts are
    canonical, that update posts the file with the field [minorEdit=true]
    to [{base}/content/{C}/child/attachment/{A}/data]. *)
Theorem C3_update_uses_stripped_id
    (C f : string) (files : list string)
    (rs : list Attachment) (es : list error) (st st1 : State World URL)
    (attachment : Attachment) (prefix A : string) :
  GetAttachmentByFilename env C (Go.path_Base f) st
    = (Returns (Ok attachment), st1) ->
  Id attachment = prefix ++ A ->
  String.length prefix = 3 ->
  AddUpdateAttachments_range env C (f :: files) rs es st
    = record_and_continue env C files rs es
        (UpdateAttachment env C A f true) st1
  /\
  (let target :=
     client_Endpoint env ++ "/content/" ++ C ++ "/child/attachment/"
       ++ A ++ "/data" in
   canonical env (collection env C) = true ->
   canonical env (collection env C ++ "/" ++ A) = true ->
   canonical env target = true ->
   forall b file name content w u r w',
     reads_file env f (world st1) b file name content w ->
     url_Parse env target = Ok u ->
     let req :=
       upload_request u b name content
         [Multipart.FormField "minorEdit" "true"] in
     client_sendRequest env req w = (r, w') ->
     snd (UpdateAttachment env C A f true st1)
       = mkState (file_Close env file w')
           (wire st1 ++ [ev_sendRequest req])%list).
Proof.
  intros Hlook Hid Hlen. split.
  - rewrite range_step, Hlook, Hid, <- Hlen, slice_from_prefix. reflexivity.
  - intros target H1 H2 H3 b file name content w u r w' Hfile Hp req Hsend.
    assert (Ht : target = collection env C ++ "/" ++ A ++ "/data").
    { unfold target, collection. now rewrite !append_assoc. }
    rewrite Ht in H3.
    destruct (attachmentDataEndpoint_canonical env C A H1 H2 H3)
      as (u0 & Hu0 & Hs0).
    rewrite <- Ht in Hs0. rewrite <- Hs0 in Hp.
    now rewrite (UpdateAttachment_sent env C A f true st1 b file name content
                   w u0 u r w' Hfile Hu0 Hp Hsend).
Qed.

(** C10: when the filename lookup finds an attachment whose id is shorter
    than three bytes, [attachment.Id[3:]] is out of range and the loop
    panics on the spot, without an entry for the file in either list; the
    slice is defined exactly when the id has three bytes or more, and the
    file then goes to [UpdateAttachment]. *)
Theorem C10_short_id_panics
    (C f : string) (files : list string)
    (rs : list Attachment) (es : list error) (st st1 : State World URL)
    (attachment : Attachment) :
  GetAttachmentByFilename env C (Go.path_Base f) st
    = (Returns (Ok attachment), st1) ->
  (String.length (Id attachment) < 3 ->
   Go.slice_from (Id attachment) 3 = None
   /\ AddUpdateAttachments_range env C (f :: files) rs es st
      = (Panics "slice bounds out of range", st1))
  /\
  (3 <= String.length (Id attachment) ->
   exists id3,
     Go.slice_from (Id attachment) 3 = Some id3
     /\ AddUpdateAttachments_range env C (f :: files) rs es st
        = record_and_continue env C files rs es
            (UpdateAttachment env C id3 f true) st1).
Proof.
  intros Hlook. split; intros Hlen.
  - pose proof (slice_from_short _ _ Hlen) as Hs. split; [exact Hs|].
    rewrite range_step, Hlook, Hs. reflexivity.
  - apply slice_from_defined in Hlen as [id3 Hs]. exists id3.
    split; [exact Hs|]. rewrite range_step, Hlook, Hs. reflexivity.
Qed.

(** C5, as the code has it: no operation looks at the content identifier
    by itself.  When [url.ParseRequestURI] rejects the collection endpoint
    built from it, the lookups and the deletion return that error at once,
    creation and update return an error too, and none of the five sends
    anything. *)
Theorem C5_rejected_endpoint_sends_nothing (C : string) (e : error) :
  newAttachmentEndpoint env C = Err e ->
  (forall A st, GetAttachment env C A st = (Returns (Err e), st))
  /\ (forall filename st,
        GetAttachmentByFilename env C filename st = (Returns (Err e), st))
  /\ (forall A st, DeleteAttachment env C A st = (Returns (Err e), st))
  /\ (forall path st, exists e' w,
        AddAttachment env C path st
          = (Returns (Err e'), mkState w (wire st)))
  /\ (forall A path minorEdit st, exists e' w,
        UpdateAttachment env C A path minorEdit st
          = (Returns (Err e'), mkState w (wire st))).
Proof.
  intros H. repeat split.
  - intros A st. unfold GetAttachment.
    now rewrite (attachmentEndpoint_rejected env C A e H).
  - intros filename st. unfold GetAttachmentByFilename. now rewrite H.
  - intros A st. unfold DeleteAttachment.
    now rewrite (attachmentEndpoint_rejected env C A e H).
  - intros path st. unfold_ops. rewrite H.
    repeat (split_next; simpl); eauto.
  - intros A path minorEdit st. unfold_ops.
    rewrite (attachmentDataEndpoint_rejected env C A e H).
    repeat (split_next; simpl); eauto.
Qed.

End Reconciler.

(** ** The scenarios *)

Lemma C4_witness :
  GetAttachment (Sim.env Sim.has_a_png) "123" "att123456" Sim.start
    = (Returns (Ok Sim.a_png),
       mkState 0
         [ev_request "GET"
            "https://wiki.example.com/rest/api/content/123/child/attachment/att123456"
            "" ""])
  /\ GetAttachmentByFilename (Sim.env Sim.has_nothing) "123" "a.png" Sim.start
    = (Returns (Err (errorString "empty list")), mkState 0 [Sim.sent_lookup]).
Proof.
  split.
  - exact (proj1 (C4_get_returns_first_or_empty_list
                    (Sim.env Sim.has_a_png) "123" Sim.start)
             "att123456" _ _ _ _ eq_refl eq_refl eq_refl).
  - exact (proj2 (C4_get_returns_first_or_empty_list
                    (Sim.env Sim.has_nothing) "123" Sim.start)
             "a.png" _ _ _ _ eq_refl eq_refl eq_refl).
Defined.

Lemma sim_reads_a_png (sc : Sim.Script) :
  Sim.disk sc = Sim.on_disk -> Sim.boundary sc = "b0" ->
  reads_file (Sim.env sc) "docs/a.png" 0 "b0" "docs/a.png" "a.png"
    "PNG-DATA" 1.
Proof.
  intros Hd Hb. exists 0, 1, 1. unfold Sim.env, Sim.open, Sim.read. simpl.
  rewrite Hd, Hb. repeat split.
Defined.

Lemma C6_witness :
  UpdateAttachment (Sim.env Sim.has_a_png) "123" "123456" "docs/a.png" true
      Sim.start
    = (Returns (Ok Sim.a_png_v2),
       mkState 0 [ev_sendRequest Sim.sent_update])
  /\ AddAttachment (Sim.env Sim.has_nothing) "123" "docs/a.png" Sim.start
    = (Returns (Ok Sim.a_png), mkState 0 [ev_sendRequest Sim.sent_create]).
Proof.
  split.
  - exact (proj1 (C6_update_decodes_object_add_decodes_list
                    (Sim.env Sim.has_a_png) "123" "docs/a.png" Sim.start
                    "b0" "docs/a.png" "a.png" "PNG-DATA" 1
                    (sim_reads_a_png Sim.has_a_png eq_refl eq_refl))
             "123456" true _ _ _ _ eq_refl eq_refl eq_refl).
  - exact (proj2 (C6_update_decodes_object_add_decodes_list
                    (Sim.env Sim.has_nothing) "123" "docs/a.png" Sim.start
                    "b0" "docs/a.png" "a.png" "PNG-DATA" 1
                    (sim_reads_a_png Sim.has_nothing eq_refl eq_refl))
             _ _ _ _ eq_refl eq_refl eq_refl).
Defined.

Lemma C7_witness :
  let gone := pathError "open" "gone.png" "no such file or directory" in
  local_failure (Sim.env Sim.has_a_png) "gone.png" 0 gone 0
  /\ UpdateAttachment (Sim.env Sim.has_a_png) "123" "123456" "gone.png" true
       Sim.start
     = (Returns (Err gone), mkState 0 [])
  /\ AddAttachment (Sim.env Sim.has_a_png) "123" "gone.png" Sim.start
     = (Returns (Err gone), mkState 0 []).
Proof.
  intros gone.
  assert (H : local_failure (Sim.env Sim.has_a_png) "gone.png" 0 gone 0).
  { apply (open_fails (Sim.env Sim.has_a_png) "gone.png" 0 "b0" 0 gone 0);
      reflexivity. }
  split; [exact H|].
  exact (C7_local_failure_sends_nothing (Sim.env Sim.has_a_png)
           "123" "123456" "gone.png" true Sim.start gone 0 H).
Defined.

Lemma C8_witness :
  well_formed (Sim.env Sim.has_a_png) "123" "att1" = true
  /\ well_formed (Sim.env Sim.has_a_png) "124" "att1" = true
  /\ endpoint_text (Sim.env Sim.has_a_png) "123" "att1"
     = Some "https://wiki.example.com/rest/api/content/123/child/attachment/att1"
  /\ endpoint_text (Sim.env Sim.has_a_png) "123" "att1"
     <> endpoint_text (Sim.env Sim.has_a_png) "124" "att1".
Proof.
  assert (Hne : ("123", "att1") <> ("124", "att1")) by discriminate.
  pose proof (C8_endpoint_builder_injective (Sim.env Sim.has_a_png)
                "123" "att1" "124" "att1" eq_refl eq_refl Hne) as (H1 & _ & H).
  split; [reflexivity|]. split; [reflexivity|]. split; [exact H1|exact H].
Defined.

(** Identifiers with a slash in them are where the builder stops being
    injective: the two pairs below meet on one URL. *)
Example slash_in_identifier_collides :
  endpoint_text (Sim.env Sim.has_a_png) "1" "2/child/attachment/3"
  = endpoint_text (Sim.env Sim.has_a_png) "1/child/attachment/2" "3".
Proof. reflexivity. Qed.

(** C1, at the input where it fails: the lookup for the one file of the
    batch is answered with an attachment whose id is "ab"; the call panics
    after that single request and returns neither list. *)
Theorem C1_batch_panics_on_short_id :
  AddUpdateAttachments (Sim.env Sim.has_short_id) "123" ["docs/a.png"]
    Sim.start
  = (Panics "slice bounds out of range", mkState 0 [Sim.sent_lookup]).
Proof. reflexivity. Qed.

(** The two scenarios of the specification for one file: creation when the
    service has no [a.png], update at [.../123456/data] when it has. *)
Example scenario_create :
  AddUpdateAttachments (Sim.env Sim.has_nothing) "123" ["docs/a.png"]
    Sim.start
  = (Returns ([Sim.a_png], []),
     mkState 0 [Sim.sent_lookup; ev_sendRequest Sim.sent_create]).
Proof. reflexivity. Qed.

Example scenario_update :
  AddUpdateAttachments (Sim.env Sim.has_a_png) "123" ["docs/a.png"]
    Sim.start
  = (Returns ([Sim.a_png_v2], []),
     mkState 0 [Sim.sent_lookup; ev_sendRequest Sim.sent_update]).
Proof. reflexivity. Qed.

(** C2 fails as stated: the lookup fails with a transport error, which is
    not the "empty list" error, and yet the file is created (the POST to
    the collection endpoint is in the log) and the batch reports one
    success and no error. *)
Lemma C2_counterexample :
  GetAttachmentByFilename (Sim.env Sim.lookup_unavailable) "123" "a.png"
      Sim.start
    = (Returns (Err (transportError "503 Service Unavailable")),
       mkState 0 [Sim.sent_lookup])
  /\ transportError "503 Service Unavailable" <> errorString "empty list"
  /\ AddUpdateAttachments (Sim.env Sim.lookup_unavailable) "123"
       ["docs/a.png"] Sim.start
     = (Returns ([Sim.a_png], []),
        mkState 0 [Sim.sent_lookup; ev_sendRequest Sim.sent_create])
  /\ ~ surfaces_lookup_error (Sim.env Sim.lookup_unavailable) "123"
        "docs/a.png" Sim.start.
Proof.
  split; [reflexivity|]. split; [discriminate|]. split; [reflexivity|].
  intros H.
  destruct (H (transportError "503 Service Unavailable")
              (mkState 0 [Sim.sent_lookup]) eq_refl)
    as (st' & Hrun & _); discriminate.
Qed.

Lemma C2_witness :
  AddUpdateAttachments_range (Sim.env Sim.has_nothing) "123"
      ["docs/a.png"] [] [] Sim.start
  = record_and_continue (Sim.env Sim.has_nothing) "123" [] [] []
      (AddAttachment (Sim.env Sim.has_nothing) "123" "docs/a.png")
      (mkState 0 [Sim.sent_lookup]).
Proof.
  exact (C2_any_lookup_failure_routes_to_create (Sim.env Sim.has_nothing)
           "123" "docs/a.png" [] [] [] Sim.start _ (errorString "empty list")
           eq_refl).
Defined.

Lemma C3_witness :
  AddUpdateAttachments_range (Sim.env Sim.has_a_png) "123"
      ["docs/a.png"] [] [] Sim.start
    = record_and_continue (Sim.env Sim.has_a_png) "123" [] [] []
        (UpdateAttachment (Sim.env Sim.has_a_png) "123" "123456"
           "docs/a.png" true)
        (mkState 0 [Sim.sent_lookup])
  /\ snd (UpdateAttachment (Sim.env Sim.has_a_png) "123" "123456"
            "docs/a.png" true (mkState 0 [Sim.sent_lookup]))
    = mkState 0 [Sim.sent_lookup; ev_sendRequest Sim.sent_update].
Proof.
  pose proof (C3_update_uses_stripped_id (Sim.env Sim.has_a_png)
                "123" "docs/a.png" [] [] [] Sim.start
                (mkState 0 [Sim.sent_lookup]) Sim.a_png "att" "123456"
                eq_refl eq_refl eq_refl) as [H1 H2].
  split; [exact H1|].
  exact (H2 eq_refl eq_refl eq_refl "b0" "docs/a.png" "a.png" "PNG-DATA" 1
           _ _ _ (sim_reads_a_png Sim.has_a_png eq_refl eq_refl)
           eq_refl eq_refl).
Defined.

Lemma C10_witness :
  String.length (Id Sim.short_id) < 3
  /\ AddUpdateAttachments_range (Sim.env Sim.has_short_id) "123"
       ["docs/a.png"] [] [] Sim.start
     = (Panics "slice bounds out of range", mkState 0 [Sim.sent_lookup])
  /\ Go.slice_from (Id Sim.a_png) 3 = Some "123456".
Proof.
  assert (Hshort : String.length (Id Sim.short_id) < 3) by (simpl; lia).
  assert (Hlong : 3 <= String.length (Id Sim.a_png)) by (simpl; lia).
  split; [exact Hshort|]. split.
  - exact (proj2 (proj1 (C10_short_id_panics (Sim.env Sim.has_short_id)
                           "123" "docs/a.png" [] [] [] Sim.start
                           (mkState 0 [Sim.sent_lookup]) Sim.short_id
                           eq_refl) Hshort)).
  - destruct (proj2 (C10_short_id_panics (Sim.env Sim.has_a_png)
                       "123" "docs/a.png" [] [] [] Sim.start
                       (mkState 0 [Sim.sent_lookup]) Sim.a_png
                       eq_refl) Hlong) as (id3 & Hs & _).
    rewrite Hs. simpl in Hs. injection Hs as <-. reflexivity.
Defined.

(** C5 fails as stated: with an ordinary base URL the empty content
    identifier gives an endpoint that parses, and the lookup, the deletion
    and the update each send their request to [.../content//child/...]. *)
Lemma C5_counterexample :
  GetAttachment (Sim.env Sim.has_a_png) "" "att123456" Sim.start
    = (Returns (Err (transportError "404 Not Found")),
       mkState 0
         [ev_request "GET"
            "https://wiki.example.com/rest/api/content//child/attachment/att123456"
            "" ""])
  /\ ~ rejected_unsent
        (GetAttachment (Sim.env Sim.has_a_png) "" "att123456") Sim.start
  /\ ~ rejected_unsent
        (GetAttachmentByFilename (Sim.env Sim.has_a_png) "" "a.png") Sim.start
  /\ ~ rejected_unsent
        (DeleteAttachment (Sim.env Sim.has_a_png) "" "att123456") Sim.start
  /\ ~ rejected_unsent
        (AddAttachment (Sim.env Sim.has_a_png) "" "docs/a.png") Sim.start
  /\ ~ rejected_unsent
        (UpdateAttachment (Sim.env Sim.has_a_png) "" "123456" "docs/a.png"
           true)
        Sim.start.
Proof.
  split; [reflexivity|].
  repeat split; intros (e & st' & Hrun & Hwire);
    vm_compute in Hrun; injection Hrun as _ <-; discriminate Hwire.
Qed.

Lemma C5_witness :
  let e :=
    urlError "parse" "wiki.example.com/rest/api/content//child/attachment"
      "invalid URI for request" in
  newAttachmentEndpoint (Sim.env Sim.no_scheme) "" = Err e
  /\ GetAttachment (Sim.env Sim.no_scheme) "" "att123456" Sim.start
     = (Returns (Err e), Sim.start)
  /\ DeleteAttachment (Sim.env Sim.no_scheme) "" "att123456" Sim.start
     = (Returns (Err e), Sim.start).
Proof.
  intros e.
  assert (H : newAttachmentEndpoint (Sim.env Sim.no_scheme) "" = Err e)
    by reflexivity.
  destruct (C5_rejected_endpoint_sends_nothing (Sim.env Sim.no_scheme) "" e H)
    as (HG & _ & HD & _).
  split; [exact H|]. split; [apply HG | apply HD].
Defined.

(** In the scenarios where every id the service hands out has its
    three-byte prefix, the batch returns with one outcome for each file,
    whatever the files. *)
Example batch_completes_when_ids_are_prefixed (files : list string) :
  exists rs es st',
    AddUpdateAttachments (Sim.env Sim.has_a_png) "123" files Sim.start
      = (Returns (rs, es), st')
    /\ length rs + length es = length files.
Proof.
  apply batch_completes_on_long_ids.
  intros res l a rest Hdec Hres. simpl in Hdec. unfold Sim.decode in Hdec.
  destruct (find _ _) as [v|] eqn:F; [|discriminate].
  injection Hdec as <-. apply find_some in F as [Hin _].
  destruct Hin as [<-|[]]. simpl in Hres. injection Hres as <- _.
  simpl. lia.
Qed.

(** [path.Base] and [url.QueryEscape] on the values of the package
    documentation. *)
Example path_Base_examples :
  Go.path_Base "/a/b" = "b" /\ Go.path_Base "/" = "/"
  /\ Go.path_Base "" = "." /\ Go.path_Base "a/b//" = "b"
  /\ Go.path_Base "docs/a.png" = "a.png" /\ Go.path_Base "a.png" = "a.png".
Proof. repeat split. Qed.

Example QueryEscape_examples :
  Go.QueryEscape "a.png" = "a.png"
  /\ Go.QueryEscape "my file/1.png" = "my+file%2F1.png"
  /\ Go.Values_Encode1 "filename" "a&b=c.png" = "filename=a%26b%3Dc.png".
Proof. repeat split. Qed.

(** ** One exchange per operation *)

Section Exchanges.

Context {World URL File : Type}.
Variable env : Env World URL File.

(** With an endpoint that parses, [DeleteAttachment] makes one DELETE
    request with an empty body to the attachment endpoint; it returns nil
    when the transport does and the transport's error otherwise, and never
    looks at the response body. *)
Theorem DeleteAttachment_one_exchange
    (C A : string) (st : State World URL) (u : URL)
    (r : result string) (w : World) :
  attachmentEndpoint env C A = Ok u ->
  client_request env "DELETE" (url_String env u) "" "" (world st) = (r, w) ->
  DeleteAttachment env C A st
  = (Returns match r with
             | Ok _ => Ok tt
             | Err err => Err err
             end,
     mkState w
       (wire st ++ [ev_request "DELETE" (url_String env u) "" ""])%list).
Proof.
  intros Hu Hreq. unfold_ops. rewrite Hu, Hreq. simpl.
  destruct r; reflexivity.
Qed.

(** With an endpoint that parses, each lookup makes one GET request and
    returns what that single answer gives: the transport's error as it is,
    the decoder's error as it is, "empty list", or the first result. *)
Theorem lookups_return_the_single_answer
    (C : string) (st : State World URL) :
  (forall A u r w,
     attachmentEndpoint env C A = Ok u ->
     client_request env "GET" (url_String env u) "" "" (world st) = (r, w) ->
     GetAttachment env C A st
     = (Returns match r with
                | Ok res => first_of_body env res
                | Err err => Err err
                end,
        mkState w
          (wire st ++ [ev_request "GET" (url_String env u) "" ""])%list))
  /\
  (forall filename u r w,
     newAttachmentEndpoint env C = Ok u ->
     let url :=
       url_String env
         (url_set_RawQuery env u (Go.Values_Encode1 "filename" filename)) in
     client_request env "GET" url "" "" (world st) = (r, w) ->
     GetAttachmentByFilename env C filename st
     = (Returns match r with
                | Ok res => first_of_body env res
                | Err err => Err err
                end,
        mkState w (wire st ++ [ev_request "GET" url "" ""])%list)).
Proof.
  split.
  - intros A u r w Hu Hreq. unfold_ops. rewrite Hu, Hreq. simpl.
    unfold first_of_body. destruct r as [res|]; [|reflexivity].
    destruct (json_Unmarshal_Attachments env res) as [l|]; [|reflexivity].
    destruct (Results l); reflexivity.
  - intros filename u r w Hu url Hreq. unfold_ops. rewrite Hu. fold url.
    rewrite Hreq. simpl.
    unfold first_of_body. destruct r as [res|]; [|reflexivity].
    destruct (json_Unmarshal_Attachments env res) as [l|]; [|reflexivity].
    destruct (Results l); reflexivity.
Qed.

(** An attachment a lookup returns is the head of the results decoded from
    the body the transport gave for the one GET request of the call. *)
Theorem lookup_result_comes_from_the_answer
    (C : string) (st st' : State World URL) (a : Attachment) :
  (forall A,
     GetAttachment env C A st = (Returns (Ok a), st') ->
     exists u res l rest,
       attachmentEndpoint env C A = Ok u
       /\ client_request env "GET" (url_String env u) "" "" (world st)
          = (Ok res, world st')
       /\ json_Unmarshal_Attachments env res = Ok l
       /\ Results l = a :: rest
       /\ wire st'
          = (wire st ++ [ev_request "GET" (url_String env u) "" ""])%list)
  /\
  (forall filename,
     GetAttachmentByFilename env C filename st = (Returns (Ok a), st') ->
     exists u res l rest,
       newAttachmentEndpoint env C = Ok u
       /\ client_request env "GET"
            (url_String env
               (url_set_RawQuery env u
                  (Go.Values_Encode1 "filename" filename)))
            "" "" (world st)
          = (Ok res, world st')
       /\ json_Unmarshal_Attachments env res = Ok l
       /\ Results l = a :: rest
       /\ wire st'
          = (wire st
             ++ [ev_request "GET"
                   (url_String env
                      (url_set_RawQuery env u
                         (Go.Values_Encode1 "filename" filename)))
                   "" ""])%list).
Proof.
  split.
  - intros A. unfold_ops.
    destruct (attachmentEndpoint env C A) as [u|]; [|discriminate].
    destruct (client_request env _ _ _ _ _) as [[res|] w] eqn:Hreq; simpl;
      [|discriminate].
    destruct (json_Unmarshal_Attachments env res) as [l|] eqn:Hj;
      [|discriminate].
    destruct (Results l) as [|x rest] eqn:Hr; [discriminate|].
    intros H. injection H as -> <-. simpl. exists u, res, l, rest. auto.
  - intros filename. unfold_ops.
    destruct (newAttachmentEndpoint env C) as [u|]; [|discriminate].
    destruct (client_request env _ _ _ _ _) as [[res|] w] eqn:Hreq; simpl;
      [|discriminate].
    destruct (json_Unmarshal_Attachments env res) as [l|] eqn:Hj;
      [|discriminate].
    destruct (Results l) as [|x rest] eqn:Hr; [discriminate|].
    intros H. injection H as -> <-. simpl. exists u, res, l, rest. auto.
Qed.

(** No operation makes more than one transport call, and the call is of
    one fixed kind: a GET with empty body for the lookups, a DELETE with
    empty body for the deletion. *)
Theorem reads_and_delete_send_at_most_once
    (C A filename : string) (st : State World URL) :
  (wire (snd (GetAttachment env C A st)) = wire st
   \/ exists url,
        wire (snd (GetAttachment env C A st))
        = (wire st ++ [ev_request "GET" url "" ""])%list)
  /\ (wire (snd (GetAttachmentByFilename env C filename st)) = wire st
      \/ exists url,
           wire (snd (GetAttachmentByFilename env C filename st))
           = (wire st ++ [ev_request "GET" url "" ""])%list)
  /\ (wire (snd (DeleteAttachment env C A st)) = wire st
      \/ exists url,
           wire (snd (DeleteAttachment env C A st))
           = (wire st ++ [ev_request "DELETE" url "" ""])%list).
Proof.
  repeat split; unfold_ops;
    repeat (split_next; simpl); eauto.
Qed.

(** Whatever happens, an upload makes at most one transport call, and the
    request is a POST whose body is closed and holds the file part named
    "file" first; an update adds the one field [minorEdit], written "true"
    or "false", a creation adds nothing; the Content-Type header carries
    the boundary of the body. *)
Theorem uploads_send_at_most_once
    (C A path : string) (minorEdit : bool) (st : State World URL) :
  (wire (snd (UpdateAttachment env C A path minorEdit st)) = wire st
   \/ exists u b name content,
        wire (snd (UpdateAttachment env C A path minorEdit st))
        = (wire st
           ++ [ev_sendRequest
                 (upload_request u b name content
                    [Multipart.FormField "minorEdit"
                       (if minorEdit then "true" else "false")])])%list)
  /\ (wire (snd (AddAttachment env C path st)) = wire st
      \/ exists u b name content,
           wire (snd (AddAttachment env C path st))
           = (wire st
              ++ [ev_sendRequest (upload_request u b name content [])])%list).
Proof.
  split; unfold_ops; unfold upload_request, Go.FormatBool;
    repeat (split_next; simpl); eauto 8.
Qed.

End Exchanges.

(** ** Uploads that fail after the file was read *)

Section UploadFailures.

Context {World URL File : Type}.
Variable env : Env World URL File.

Lemma UpdateAttachment_unsent C A path minorEdit st b file name content w e :
  reads_file env path (world st) b file name content w ->
  match attachmentDataEndpoint env C A with
  | Ok u => url_Parse env (url_String env u) = Err e
  | Err e' => e' = e
  end ->
  UpdateAttachment env C A path minorEdit st
  = (Returns (Err e), mkState (file_Close env file w) (wire st)).
Proof.
  intros (w1 & w2 & w3 & Hb & Ho & Hs & Hr) Hu.
  unfold_ops. rewrite Hb. simpl. rewrite Ho. simpl. rewrite Hs. simpl.
  rewrite Hr. simpl.
  destruct (attachmentDataEndpoint env C A) as [u|e'].
  - now rewrite Hu.
  - now subst.
Qed.

Lemma AddAttachment_unsent C path st b file name content w e :
  reads_file env path (world st) b file name content w ->
  match newAttachmentEndpoint env C with
  | Ok u => url_Parse env (url_String env u) = Err e
  | Err e' => e' = e
  end ->
  AddAttachment env C path st
  = (Returns (Err e), mkState (file_Close env file w) (wire st)).
Proof.
  intros (w1 & w2 & w3 & Hb & Ho & Hs & Hr) Hu.
  unfold_ops. rewrite Hb. simpl. rewrite Ho. simpl. rewrite Hs. simpl.
  rewrite Hr. simpl.
  destruct (newAttachmentEndpoint env C) as [u|e'].
  - now rewrite Hu.
  - now subst.
Qed.

(** The endpoint of an upload is built after the local file has been
    opened and read to its end: when the endpoint text is then rejected (by
    [url.ParseRequestURI], or by [http.NewRequest] parsing it again), the
    upload returns that parse error, the file is closed, and nothing is
    sent. *)
Theorem upload_endpoint_is_checked_after_the_read
    (C path : string) (st : State World URL)
    (b : string) (file : File) (name content : string) (w : World)
    (e : error) :
  reads_file env path (world st) b file name content w ->
  (forall A minorEdit,
     attachmentDataEndpoint env C A = Err e
     \/ (exists u, attachmentDataEndpoint env C A = Ok u
                   /\ url_Parse env (url_String env u) = Err e) ->
     UpdateAttachment env C A path minorEdit st
     = (Returns (Err e), mkState (file_Close env file w) (wire st)))
  /\
  (newAttachmentEndpoint env C = Err e
   \/ (exists u, newAttachmentEndpoint env C = Ok u
                 /\ url_Parse env (url_String env u) = Err e) ->
   AddAttachment env C path st
   = (Returns (Err e), mkState (file_Close env file w) (wire st))).
Proof.
  intros Hfile. split.
  - intros A minorEdit H.
    apply (UpdateAttachment_unsent C A path minorEdit st b file name content
             w e Hfile).
    destruct H as [-> | (u & -> & H)]; auto.
  - intros H.
    apply (AddAttachment_unsent C path st b file name content w e Hfile).
    destruct H as [-> | (u & -> & H)]; auto.
Qed.

(** An upload whose request the transport fails returns the transport's
    error as it is, after that single request, with the file closed;
    nothing is decoded and nothing is retried. *)
Theorem upload_transport_error_is_returned
    (C path : string) (st : State World URL)
    (b : string) (file : File) (name content : string) (w : World) :
  reads_file env path (world st) b file name content w ->
  (forall A minorEdit u u' e w',
     attachmentDataEndpoint env C A = Ok u ->
     url_Parse env (url_String env u) = Ok u' ->
     let req :=
       upload_request u' b name content
         [Multipart.FormField "minorEdit" (Go.FormatBool minorEdit)] in
     client_sendRequest env req w = (Err e, w') ->
     UpdateAttachment env C A path minorEdit st
     = (Returns (Err e),
        mkState (file_Close env file w')
          (wire st ++ [ev_sendRequest req])%list))
  /\
  (forall u u' e w',
     newAttachmentEndpoint env C = Ok u ->
     url_Parse env (url_String env u) = Ok u' ->
     let req := upload_request u' b name content [] in
     client_sendRequest env req w = (Err e, w') ->
     AddAttachment env C path st
     = (Returns (Err e),
        mkState (file_Close env file w')
          (wire st ++ [ev_sendRequest req])%list)).
Proof.
  intros Hfile. split.
  - intros A minorEdit u u' e w' Hu Hp req Hsend.
    exact (UpdateAttachment_sent env C A path minorEdit st b file name
             content w u u' (Err e) w' Hfile Hu Hp Hsend).
  - intros u u' e w' Hu Hp req Hsend.
    exact (AddAttachment_sent env C path st b file name content w u u'
             (Err e) w' Hfile Hu Hp Hsend).
Qed.

(** Once [os.Open] has given a file, the last thing an upload does to the
    world is to close that file, on every path out: a failing Stat or
    read, a rejected endpoint, a failing request, a body that does not
    decode, or success. *)
Theorem upload_closes_the_file
    (C A path : string) (minorEdit : bool) (st : State World URL)
    (b : string) (w1 : World) (file : File) (w2 : World) :
  rand_Boundary env (world st) = (b, w1) ->
  os_Open env path w1 = (Ok file, w2) ->
  (exists w,
     world (snd (UpdateAttachment env C A path minorEdit st))
     = file_Close env file w)
  /\ (exists w,
        world (snd (AddAttachment env C path st)) = file_Close env file w).
Proof.
  intros Hb Ho. split; unfold_ops; rewrite Hb; simpl; rewrite Ho; simpl;
    repeat (split_next; simpl); eauto.
Qed.

End UploadFailures.

(** ** The batch as a sequence of files *)

Section Batch.

Context {World URL File : Type}.
Variable env : Env World URL File.

Lemma range_via_upsert (C f : string) (files : list string) rs es st :
  AddUpdateAttachments_range env C (f :: files) rs es st
  = record_and_continue env C files rs es (upsert env C f) st.
Proof.
  simpl. unfold record_and_continue, upsert, bind.
  destruct (GetAttachmentByFilename env C (Go.path_Base f) st)
    as [[[a|e]|msg] st1]; try reflexivity.
Qed.

Lemma range_as_outcomes (C : string) (files : list string) :
  forall rs es st,
    AddUpdateAttachments_range env C files rs es st
    = (os <- outcomes env C files ;;
       ret ((rs ++ successes os)%list, (es ++ failures os)%list)) st.
Proof.
  induction files as [|f files IH]; intros rs es st.
  - simpl. unfold bind, ret. simpl. now rewrite !app_nil_r.
  - rewrite range_via_upsert. simpl outcomes.
    unfold record_and_continue. unfold bind at 1 2 3.
    destruct (upsert env C f st) as [[[a|e]|msg] st1]; [| |reflexivity];
      rewrite IH; unfold bind, ret;
      destruct (outcomes env C files st1) as [[os|msg] st2];
      simpl; try reflexivity; now rewrite <- app_assoc.
Qed.

(** The two lists of the batch are the outcomes of the files, taken in the
    order of the input: the attachments of the files that succeeded, and
    the errors of the files that failed, each list in input order.  A panic
    of a file is the panic of the batch. *)
Theorem batch_lists_follow_input_order
    (C : string) (files : list string) (st : State World URL) :
  AddUpdateAttachments env C files st
  = (os <- outcomes env C files ;; ret (successes os, failures os)) st.
Proof.
  unfold AddUpdateAttachments. now rewrite range_as_outcomes.
Qed.

(** A batch over [files1 ++ files2] is the batch over [files1] followed, in
    the state it leaves, by the loop over [files2] appending to the lists
    the first part returned. *)
Theorem batch_splits_over_append
    (C : string) (files1 files2 : list string)
    (rs : list Attachment) (es : list error) (st : State World URL) :
  AddUpdateAttachments_range env C (files1 ++ files2) rs es st
  = (lists <- AddUpdateAttachments_range env C files1 rs es ;;
     AddUpdateAttachments_range env C files2 (fst lists) (snd lists)) st.
Proof.
  revert rs es st.
  induction files1 as [|f files1 IH]; intros rs es st.
  - reflexivity.
  - rewrite <- app_comm_cons, range_via_upsert.
    unfold bind at 1. rewrite range_via_upsert.
    unfold record_and_continue. unfold bind at 1 2.
    destruct (upsert env C f st) as [[[a|e]|msg] st1]; [| |reflexivity];
      now rewrite IH.
Qed.

Lemma sent_at_most_refl (st : State World URL) : sent_at_most 0 st st.
Proof. exists []. now rewrite app_nil_r. Qed.

Lemma sent_at_most_trans (n m : nat) (st st1 st2 : State World URL) :
  sent_at_most n st st1 -> sent_at_most m st1 st2 ->
  sent_at_most (n + m) st st2.
Proof.
  intros (l1 & H1 & L1) (l2 & H2 & L2). exists (l1 ++ l2)%list.
  rewrite H2, H1, app_assoc, length_app. split; [reflexivity | lia].
Qed.

Lemma sent_at_most_weaken (n m : nat) (st st' : State World URL) :
  n <= m -> sent_at_most n st st' -> sent_at_most m st st'.
Proof. intros H (l & Hl & L). exists l. split; [assumption | lia]. Qed.

Lemma sent_one_or_none (st st' : State World URL) :
  wire st' = wire st \/ (exists ev, wire st' = (wire st ++ [ev])%list) ->
  sent_at_most 1 st st'.
Proof.
  intros [H | (ev & H)].
  - exists []. rewrite app_nil_r. auto.
  - exists [ev]. auto.
Qed.

Lemma GetAttachmentByFilename_sends_once (C filename : string) st :
  sent_at_most 1 st (snd (GetAttachmentByFilename env C filename st)).
Proof.
  apply sent_one_or_none. unfold_ops. repeat (split_next; simpl); eauto.
Qed.

Lemma AddAttachment_sends_once (C path : string) st :
  sent_at_most 1 st (snd (AddAttachment env C path st)).
Proof.
  apply sent_one_or_none. unfold_ops. repeat (split_next; simpl); eauto.
Qed.

Lemma UpdateAttachment_sends_once (C A path : string) (m : bool) st :
  sent_at_most 1 st (snd (UpdateAttachment env C A path m st)).
Proof.
  apply sent_one_or_none. unfold_ops. repeat (split_next; simpl); eauto.
Qed.

Lemma upsert_sends_twice (C f : string) st :
  sent_at_most 2 st (snd (upsert env C f st)).
Proof.
  unfold upsert, bind at 1.
  pose proof (GetAttachmentByFilename_sends_once C (Go.path_Base f) st) as H.
  destruct (GetAttachmentByFilename env C (Go.path_Base f) st)
    as [[[a|e]|msg] st1]; simpl in H.
  - unfold bind, Id_from_3. destruct (Go.slice_from (Id a) 3) as [id3|].
    + unfold ret. apply (sent_at_most_trans 1 1 st st1); [exact H|].
      apply UpdateAttachment_sends_once.
    + unfold panic. simpl. apply (sent_at_most_weaken 1 2); [lia | exact H].
  - apply (sent_at_most_trans 1 1 st st1); [exact H|].
    apply AddAttachment_sends_once.
  - simpl. apply (sent_at_most_weaken 1 2); [lia | exact H].
Qed.

Lemma range_sends (C : string) (files : list string) :
  forall rs es st,
    sent_at_most (2 * length files) st
      (snd (AddUpdateAttachments_range env C files rs es st)).
Proof.
  induction files as [|f files IH]; intros rs es st.
  - apply sent_at_most_refl.
  - rewrite range_via_upsert. unfold record_and_continue, bind.
    pose proof (upsert_sends_twice C f st) as H.
    replace (2 * length (f :: files)) with (2 + 2 * length files)
      by (simpl; lia).
    destruct (upsert env C f st) as [[[a|e]|msg] st1]; simpl in H.
    + apply (sent_at_most_trans _ _ st st1); [exact H | apply IH].
    + apply (sent_at_most_trans _ _ st st1); [exact H | apply IH].
    + simpl. apply (sent_at_most_weaken 2); [lia | exact H].
Qed.

(** A batch of N files only adds to the log of transport calls, and adds
    at most 2N calls (a lookup and an upload for each file): nothing is
    retried, whether the batch returns or panics. *)
Theorem batch_sends_at_most_two_per_file
    (C : string) (files : list string) (st : State World URL) :
  sent_at_most (2 * length files) st
    (snd (AddUpdateAttachments env C files st)).
Proof. apply range_sends. Qed.

Lemma AddAttachment_rejected_unsent (C path : string) (e : error) st :
  newAttachmentEndpoint env C = Err e ->
  exists e' w,
    AddAttachment env C path st = (Returns (Err e'), mkState w (wire st)).
Proof.
  intros H. unfold_ops. rewrite H. repeat (split_next; simpl); eauto.
Qed.

(** When [url.ParseRequestURI] rejects the collection endpoint of the
    content item, a batch of N files returns no attachment and N errors,
    and sends nothing: for each file the lookup fails on the endpoint, the
    creation is tried and fails in turn. *)
Theorem batch_on_rejected_endpoint
    (C : string) (e : error) (files : list string) (st : State World URL) :
  newAttachmentEndpoint env C = Err e ->
  exists es st',
    AddUpdateAttachments env C files st = (Returns ([], es), st')
    /\ length es = length files
    /\ wire st' = wire st.
Proof.
  intros H. unfold AddUpdateAttachments.
  assert (G : forall fs rs es0 st0, exists es1 st',
             AddUpdateAttachments_range env C fs rs es0 st0
               = (Returns (rs, (es0 ++ es1)%list), st')
             /\ length es1 = length fs /\ wire st' = wire st0).
  { induction fs as [|f fs IH]; intros rs es0 st0.
    - exists [], st0. simpl. unfold ret. now rewrite app_nil_r.
    - rewrite range_step. unfold GetAttachmentByFilename. rewrite H.
      unfold ret at 1. unfold record_and_continue, bind.
      destruct (AddAttachment_rejected_unsent C f e st0 H) as (e' & w & ->).
      destruct (IH rs (es0 ++ [e'])%list (mkState w (wire st0)))
        as (es1 & st' & Hrun & Hlen & Hwire).
      exists (e' :: es1), st'. rewrite Hrun, <- app_assoc. simpl.
      repeat split; [now rewrite Hlen | exact Hwire]. }
  destruct (G files [] [] st) as (es1 & st' & Hrun & Hlen & Hwire).
  exists es1, st'. auto.
Qed.

(** A batch panics only at the slice of line 248: the message is the
    slice-bounds one, and the panic comes right after the lookup of one of
    the files found an attachment whose id is shorter than three bytes. *)
Theorem batch_panics_only_on_short_id
    (C : string) (files : list string)
    (rs : list Attachment) (es : list error) (st st' : State World URL)
    (msg : string) :
  AddUpdateAttachments_range env C files rs es st = (Panics msg, st') ->
  msg = "slice bounds out of range"
  /\ exists f attachment st0,
       In f files
       /\ GetAttachmentByFilename env C (Go.path_Base f) st0
          = (Returns (Ok attachment), st')
       /\ String.length (Id attachment) < 3.
Proof.
  revert rs es st.
  induction files as [|f files IH]; intros rs es st H.
  - discriminate H.
  - rewrite range_step in H.
    assert (K : forall up st1,
               returns up ->
               record_and_continue env C files rs es up st1
                 = (Panics msg, st') ->
               msg = "slice bounds out of range"
               /\ exists f0 attachment st0,
                    In f0 (f :: files)
                    /\ GetAttachmentByFilename env C (Go.path_Base f0) st0
                       = (Returns (Ok attachment), st')
                    /\ String.length (Id attachment) < 3).
    { intros up st1 Hup Hc. unfold record_and_continue, bind in Hc.
      destruct (Hup st1) as (r & st2 & Hr). rewrite Hr in Hc.
      destruct r; apply IH in Hc;
        destruct Hc as (Hm & f0 & a0 & st0 & Hin & Hl & Hs);
        (split; [exact Hm|]); exists f0, a0, st0; simpl; auto. }
    destruct (GetAttachmentByFilename_returns env C (Go.path_Base f) st)
      as (r & st1 & Hlook).
    rewrite Hlook in H. destruct r as [a|e].
    + destruct (Go.slice_from (Id a) 3) as [id3|] eqn:Hs.
      * apply (K (UpdateAttachment env C id3 f true) st1);
          [apply UpdateAttachment_returns | exact H].
      * injection H as <- <-. split; [reflexivity|].
        exists f, a, st. split; [now left|]. split; [exact Hlook|].
        destruct (Nat.lt_ge_cases (String.length (Id a)) 3) as [L|L];
          [exact L|].
        apply slice_from_defined in L as [t Ht]. congruence.
    + apply (K (AddAttachment env C f) st1);
        [apply AddAttachment_returns | exact H].
Qed.

Lemma lookup_ignores_size (size : string -> Z -> Z) (C filename : string) st :
  GetAttachmentByFilename (with_size env size) C filename st
  = GetAttachmentByFilename env C filename st.
Proof.
  unfold_ops. unfold newAttachmentEndpoint. simpl.
  repeat (split_next; simpl; try reflexivity).
Qed.

Lemma creation_ignores_size (size : string -> Z -> Z) (C path : string) st :
  AddAttachment (with_size env size) C path st = AddAttachment env C path st.
Proof.
  unfold_ops. unfold newAttachmentEndpoint. simpl.
  repeat (split_next; simpl; try reflexivity).
Qed.

(** The whole batch is blind to the [size] field of the envelopes it
    decodes: with any other reported sizes it returns the same lists and
    makes the same calls. *)
Theorem batch_ignores_size
    (size : string -> Z -> Z) (C : string) (files : list string)
    (st : State World URL) :
  AddUpdateAttachments (with_size env size) C files st
  = AddUpdateAttachments env C files st.
Proof.
  unfold AddUpdateAttachments. generalize (@nil Attachment) (@nil error).
  revert st. induction files as [|f files IH]; intros st rs es.
  - reflexivity.
  - rewrite !range_step, lookup_ignores_size.
    destruct (GetAttachmentByFilename env C (Go.path_Base f) st)
      as [[[a|e]|msg] st1]; [| |reflexivity].
    + destruct (Go.slice_from (Id a) 3) as [id3|]; [|reflexivity].
      unfold record_and_continue, bind.
      change (UpdateAttachment (with_size env size) C id3 f true st1)
        with (UpdateAttachment env C id3 f true st1).
      destruct (UpdateAttachment env C id3 f true st1) as [[[a'|e']|m] st2];
        [apply IH | apply IH | reflexivity].
    + unfold record_and_continue, bind. rewrite creation_ignores_size.
      destruct (AddAttachment env C f st1) as [[[a'|e']|m] st2];
        [apply IH | apply IH | reflexivity].
Qed.

End Batch.

(** ** More on the endpoint builders *)

Lemma append_cancel_r (a b s : string) : a ++ s = b ++ s -> a = b.
Proof.
  revert b. induction a as [|x a IH]; intros [|y b] H; simpl in H.
  - reflexivity.
  - apply (f_equal String.length) in H. simpl in H.
    rewrite length_append in H. lia.
  - apply (f_equal String.length) in H. simpl in H.
    rewrite length_append in H. lia.
  - injection H as Hxy H. subst y. f_equal. auto.
Qed.

Section MoreEndpoints.

Context {World URL File : Type}.
Variable env : Env World URL File.

(** Two content identifiers whose collection endpoints are canonical get
    different collection URLs as soon as they differ, whatever bytes they
    are made of. *)
Theorem collection_endpoint_injective (C1 C2 : string) :
  canonical env (collection env C1) = true ->
  canonical env (collection env C2) = true ->
  C1 <> C2 ->
  exists u1 u2,
    newAttachmentEndpoint env C1 = Ok u1
    /\ newAttachmentEndpoint env C2 = Ok u2
    /\ url_String env u1
       = client_Endpoint env ++ "/content/" ++ C1 ++ "/child/attachment"
    /\ url_String env u1 <> url_String env u2.
Proof.
  intros H1 H2 Hne.
  destruct (canonical_parse env _ H1) as (u1 & Hp1 & Hs1).
  destruct (canonical_parse env _ H2) as (u2 & Hp2 & Hs2).
  exists u1, u2. repeat split; try assumption.
  rewrite Hs1, Hs2. unfold collection. intros H.
  apply append_cancel_l in H. apply (append_cancel_l "/content/") in H.
  apply append_cancel_r in H. contradiction.
Qed.

(** On well-formed identifiers whose data endpoint is canonical too, the
    builder of the upload endpoint gives
    [{base}/content/{C}/child/attachment/{A}/data] and is injective. *)
Theorem data_endpoint_injective (C1 A1 C2 A2 : string) :
  well_formed env C1 A1 = true ->
  well_formed env C2 A2 = true ->
  canonical env (collection env C1 ++ "/" ++ A1 ++ "/data") = true ->
  canonical env (collection env C2 ++ "/" ++ A2 ++ "/data") = true ->
  (C1, A1) <> (C2, A2) ->
  exists u1 u2,
    attachmentDataEndpoint env C1 A1 = Ok u1
    /\ attachmentDataEndpoint env C2 A2 = Ok u2
    /\ url_String env u1
       = client_Endpoint env ++ "/content/" ++ C1 ++ "/child/attachment/"
           ++ A1 ++ "/data"
    /\ url_String env u1 <> url_String env u2.
Proof.
  intros W1 W2 D1 D2 Hne.
  unfold well_formed, segment in W1, W2.
  repeat match goal with
         | W : _ && _ = true |- _ => apply andb_true_iff in W as [? ?]
         end.
  destruct (attachmentDataEndpoint_canonical env C1 A1) as (u1 & Hu1 & Hs1);
    try assumption.
  destruct (attachmentDataEndpoint_canonical env C2 A2) as (u2 & Hu2 & Hs2);
    try assumption.
  exists u1, u2. split; [exact Hu1|]. split; [exact Hu2|].
  unfold collection in Hs1, Hs2. rewrite !append_assoc in Hs1, Hs2.
  simpl in Hs1, Hs2. split; [exact Hs1|].
  rewrite Hs1, Hs2. intros Heq.
  apply append_cancel_l in Heq. apply (append_cancel_l "/content/") in Heq.
  apply first_slash_split in Heq; [|assumption|assumption].
  destruct Heq as [HC HA]. apply (append_cancel_l "child/attachment/") in HA.
  apply append_cancel_r in HA. apply Hne. now subst.
Qed.

End MoreEndpoints.

(** ** The filename of a lookup *)

Lemma upperhex_unreserved (k : nat) : Go.is_unreserved (Go.upperhex k) = true.
Proof.
  do 16 (destruct k as [|k]; [reflexivity|]). destruct k; reflexivity.
Qed.

Lemma upperhex_inj (a b : nat) :
  a < 16 -> b < 16 -> Go.upperhex a = Go.upperhex b -> a = b.
Proof.
  intros Ha Hb.
  do 16 (destruct a as [|a];
         [do 16 (destruct b as [|b];
                 [vm_compute; intros H;
                  first [reflexivity | discriminate H]|]); lia|]).
  lia.
Qed.

Lemma QueryEscape_injective (s1 s2 : string) :
  Go.QueryEscape s1 = Go.QueryEscape s2 -> s1 = s2.
Proof.
  revert s2. induction s1 as [|c1 s1 IH]; intros [|c2 s2] H;
    cbn [Go.QueryEscape] in H.
  - reflexivity.
  - destruct (Go.is_unreserved c2), (Ascii.eqb c2 " "); discriminate H.
  - destruct (Go.is_unreserved c1), (Ascii.eqb c1 " "); discriminate H.
  - destruct (Go.is_unreserved c1) eqn:U1, (Go.is_unreserved c2) eqn:U2.
    + injection H as Hc H. subst c2. f_equal. auto.
    + destruct (Ascii.eqb c2 " "); injection H as Hc H; subst c1;
        vm_compute in U1; discriminate U1.
    + destruct (Ascii.eqb c1 " "); injection H as Hc H; subst c2;
        vm_compute in U2; discriminate U2.
    + destruct (Ascii.eqb c1 " ") eqn:S1, (Ascii.eqb c2 " ") eqn:S2.
      * apply Ascii.eqb_eq in S1, S2. subst. injection H as H.
        f_equal. auto.
      * discriminate H.
      * discriminate H.
      * pose proof (nat_ascii_bounded c1) as B1.
        pose proof (nat_ascii_bounded c2) as B2.
        pose proof (Nat.div_mod_eq (nat_of_ascii c1) 16) as D1.
        pose proof (Nat.div_mod_eq (nat_of_ascii c2) 16) as D2.
        assert (Hh1 : nat_of_ascii c1 / 16 < 16)
          by (apply Nat.Div0.div_lt_upper_bound; lia).
        assert (Hh2 : nat_of_ascii c2 / 16 < 16)
          by (apply Nat.Div0.div_lt_upper_bound; lia).
        assert (Hl1 : nat_of_ascii c1 mod 16 < 16)
          by (apply Nat.mod_upper_bound; lia).
        assert (Hl2 : nat_of_ascii c2 mod 16 < 16)
          by (apply Nat.mod_upper_bound; lia).
        revert H D1 D2 Hh1 Hh2 Hl1 Hl2.
        generalize (nat_of_ascii c1 / 16) (nat_of_ascii c1 mod 16)
                   (nat_of_ascii c2 / 16) (nat_of_ascii c2 mod 16).
        intros h1 l1 h2 l2 H D1 D2 Hh1 Hh2 Hl1 Hl2.
        injection H as Hhi Hlo H.
        apply upperhex_inj in Hhi; [|assumption|assumption].
        apply upperhex_inj in Hlo; [|assumption|assumption].
        assert (Hn : nat_of_ascii c1 = nat_of_ascii c2) by congruence.
        apply (f_equal ascii_of_nat) in Hn.
        rewrite !ascii_nat_embedding in Hn. subst c2. f_equal. auto.
Qed.

(** The query a lookup puts on the collection endpoint determines the
    filename: two filenames that differ never give the same query text. *)
Theorem lookup_query_determines_filename (filename1 filename2 : string) :
  filename1 <> filename2 ->
  Go.Values_Encode1 "filename" filename1
  <> Go.Values_Encode1 "filename" filename2.
Proof.
  unfold Go.Values_Encode1. intros Hne H.
  apply append_cancel_l in H. apply (append_cancel_l "=") in H.
  now apply Hne, QueryEscape_injective.
Qed.

(** The query of a lookup is "filename=" followed by bytes that are
    letters, digits, [-], [_], [.], [~], [+] or [%]: whatever the filename,
    it cannot add a second parameter or end the query. *)
Theorem lookup_query_is_one_parameter (filename : string) :
  exists value,
    Go.Values_Encode1 "filename" filename = "filename=" ++ value
    /\ forall c,
         In c (list_ascii_of_string value) ->
         Go.is_unreserved c = true \/ c = "+"%char \/ c = "%"%char.
Proof.
  exists (Go.QueryEscape filename). split; [reflexivity|].
  induction filename as [|x s IH]; intros c Hin; cbn [Go.QueryEscape] in Hin.
  - destruct Hin.
  - destruct (Go.is_unreserved x) eqn:U.
    + destruct Hin as [<-|Hin]; auto.
    + destruct (Ascii.eqb x " ").
      * destruct Hin as [<-|Hin]; auto.
      * destruct Hin as [<-|[<-|[<-|Hin]]]; auto using upperhex_unreserved.
Qed.

Lemma upto_slash_free (l : list ascii) :
  forallb (fun c => negb (Ascii.eqb c "/")) (Go.upto_slash l) = true.
Proof.
  induction l as [|c l IH]; simpl; [reflexivity|].
  unfold Go.slash. destruct (Ascii.eqb c "/") eqn:E; simpl; [reflexivity|].
  now rewrite E.
Qed.

Lemma forallb_rev {A} (f : A -> bool) (l : list A) :
  forallb f l = true -> forallb f (rev l) = true.
Proof.
  rewrite !forallb_forall. intros H x Hin. apply H, in_rev, Hin.
Qed.

Lemma drop_slashes_head (l : list ascii) :
  match Go.drop_slashes l with
  | [] => True
  | c :: _ => Ascii.eqb c "/" = false
  end.
Proof.
  induction l as [|c l IH]; simpl; [exact I|].
  unfold Go.slash. destruct (Ascii.eqb c "/") eqn:E; [exact IH | exact E].
Qed.

Lemma upto_slash_all (l : list ascii) :
  forallb (fun c => negb (Ascii.eqb c "/")) l = true -> Go.upto_slash l = l.
Proof.
  induction l as [|c l IH]; simpl; [reflexivity|].
  unfold Go.slash. intros H. apply andb_true_iff in H as [Hc Hl].
  apply negb_true_iff in Hc. rewrite Hc. f_equal. auto.
Qed.

(** The filename a batch looks up for a file is one path element: it is
    never empty, and it holds no slash unless it is "/" itself (the path
    was made of slashes only). *)
Theorem path_Base_is_one_element (path : string) :
  Go.path_Base path <> ""
  /\ (Go.path_Base path = "/" \/ no_slash (Go.path_Base path) = true).
Proof.
  unfold Go.path_Base. destruct path as [|c s].
  - split; [discriminate | now right].
  - pose proof (drop_slashes_head (rev (list_ascii_of_string (String c s))))
      as Hhead.
    destruct (Go.drop_slashes (rev (list_ascii_of_string (String c s))))
      as [|x l] eqn:E.
    + split; [discriminate | now left].
    + split.
      * simpl. unfold Go.slash. rewrite Hhead.
        intros H. apply (f_equal list_ascii_of_string) in H.
        rewrite list_ascii_of_string_of_list_ascii in H. simpl in H.
        apply (f_equal (@length ascii)) in H.
        rewrite length_app in H. simpl in H. lia.
      * right. unfold no_slash.
        rewrite list_ascii_of_string_of_list_ascii.
        apply forallb_rev, upto_slash_free.
Qed.

(** For a path that is a bare file name (not empty, no slash) the lookup
    uses the name as it is. *)
Theorem path_Base_of_bare_name (name : string) :
  name <> "" -> no_slash name = true -> Go.path_Base name = name.
Proof.
  intros Hne Hfree. unfold Go.path_Base. destruct name as [|c s];
    [contradiction|].
  unfold no_slash in Hfree. apply forallb_rev in Hfree.
  remember (rev (list_ascii_of_string (String c s))) as l eqn:El.
  assert (Hd : Go.drop_slashes l = l).
  { destruct l as [|x l']; [reflexivity|]. simpl in Hfree |- *.
    apply andb_true_iff in Hfree as [Hx _]. apply negb_true_iff in Hx.
    unfold Go.slash. now rewrite Hx. }
  rewrite Hd. destruct l as [|x l'] eqn:L.
  - apply (f_equal (@length ascii)) in El. rewrite length_rev in El.
    simpl in El. discriminate El.
  - rewrite <- L in *. rewrite (upto_slash_all l Hfree), El, rev_involutive.
    apply string_of_list_ascii_of_string.
Qed.

(** ** Further scenarios, run *)

Lemma DeleteAttachment_one_exchange_witness :
  DeleteAttachment (Sim.env Cases.deletes) "123" "att123456" Sim.start
  = (Returns (Ok tt), mkState 0 [Cases.sent_delete]).
Proof.
  exact (DeleteAttachment_one_exchange (Sim.env Cases.deletes)
           "123" "att123456" Sim.start _ (Ok "<html>gone</html>") 0
           eq_refl eq_refl).
Defined.

Lemma lookups_return_the_single_answer_witness :
  GetAttachment (Sim.env Sim.has_nothing) "123" "att123456" Sim.start
    = (Returns (Err (transportError "404 Not Found")),
       mkState 0
         [ev_request "GET"
            "https://wiki.example.com/rest/api/content/123/child/attachment/att123456"
            "" ""])
  /\ GetAttachmentByFilename (Sim.env Cases.deletes) "123" "a.png" Sim.start
    = (Returns (Err (jsonError "invalid character")),
       mkState 0 [Sim.sent_lookup]).
Proof.
  split.
  - exact (proj1 (lookups_return_the_single_answer
                    (Sim.env Sim.has_nothing) "123" Sim.start)
             "att123456" _ (Err (transportError "404 Not Found")) 0
             eq_refl eq_refl).
  - exact (proj2 (lookups_return_the_single_answer
                    (Sim.env Cases.deletes) "123" Sim.start)
             "a.png" _ (Ok "<html>busy</html>") 0 eq_refl eq_refl).
Defined.

Lemma lookup_result_comes_from_the_answer_witness :
  exists u res l rest,
    newAttachmentEndpoint (Sim.env Sim.has_a_png) "123" = Ok u
    /\ client_request (Sim.env Sim.has_a_png) "GET"
         (url_String (Sim.env Sim.has_a_png)
            (url_set_RawQuery (Sim.env Sim.has_a_png) u
               (Go.Values_Encode1 "filename" "a.png")))
         "" "" 0
       = (Ok res, 0)
    /\ json_Unmarshal_Attachments (Sim.env Sim.has_a_png) res = Ok l
    /\ Results l = Sim.a_png :: rest
    /\ [Sim.sent_lookup]
       = ([] ++ [ev_request "GET"
                   (url_String (Sim.env Sim.has_a_png)
                      (url_set_RawQuery (Sim.env Sim.has_a_png) u
                         (Go.Values_Encode1 "filename" "a.png")))
                   "" ""])%list.
Proof.
  exact (proj2 (lookup_result_comes_from_the_answer (Sim.env Sim.has_a_png)
                  "123" Sim.start (mkState 0 [Sim.sent_lookup]) Sim.a_png)
           "a.png" eq_refl).
Defined.

Lemma upload_endpoint_is_checked_after_the_read_witness :
  let e :=
    urlError "parse" "wiki.example.com/rest/api/content/123/child/attachment"
      "invalid URI for request" in
  UpdateAttachment (Sim.env Sim.no_scheme) "123" "123456" "docs/a.png" true
      Sim.start
    = (Returns (Err e), Sim.start)
  /\ AddAttachment (Sim.env Sim.no_scheme) "123" "docs/a.png" Sim.start
    = (Returns (Err e), Sim.start).
Proof.
  intros e.
  destruct (upload_endpoint_is_checked_after_the_read (Sim.env Sim.no_scheme)
              "123" "docs/a.png" Sim.start "b0" "docs/a.png" "a.png"
              "PNG-DATA" 1 e
              (sim_reads_a_png Sim.no_scheme eq_refl eq_refl)) as [HU HA].
  split.
  - apply HU. left. reflexivity.
  - apply HA. left. reflexivity.
Defined.

Lemma upload_transport_error_is_returned_witness :
  UpdateAttachment (Sim.env Cases.refuses_uploads) "123" "123456"
      "docs/a.png" true Sim.start
    = (Returns (Err (transportError "403 Forbidden")),
       mkState 0 [ev_sendRequest Sim.sent_update])
  /\ AddAttachment (Sim.env Cases.refuses_uploads) "123" "docs/a.png"
       Sim.start
    = (Returns (Err (transportError "403 Forbidden")),
       mkState 0 [ev_sendRequest Sim.sent_create]).
Proof.
  destruct (upload_transport_error_is_returned
              (Sim.env Cases.refuses_uploads)
              "123" "docs/a.png" Sim.start "b0" "docs/a.png" "a.png"
              "PNG-DATA" 1
              (sim_reads_a_png Cases.refuses_uploads eq_refl eq_refl))
    as [HU HA].
  split.
  - exact (HU "123456" true _ _ (transportError "403 Forbidden") 1
             eq_refl eq_refl eq_refl).
  - exact (HA _ _ (transportError "403 Forbidden") 1
             eq_refl eq_refl eq_refl).
Defined.

Lemma upload_closes_the_file_witness :
  (exists w,
     world (snd (UpdateAttachment (Sim.env Sim.has_a_png) "123" "123456"
                   "docs/a.png" true Sim.start))
     = file_Close (Sim.env Sim.has_a_png) "docs/a.png" w)
  /\ (exists w,
        world (snd (AddAttachment (Sim.env Sim.has_a_png) "123"
                      "docs/a.png" Sim.start))
        = file_Close (Sim.env Sim.has_a_png) "docs/a.png" w).
Proof.
  exact (upload_closes_the_file (Sim.env Sim.has_a_png) "123" "123456"
           "docs/a.png" true Sim.start "b0" 0 "docs/a.png" 1
           eq_refl eq_refl).
Defined.

Lemma batch_on_rejected_endpoint_witness :
  exists es st',
    AddUpdateAttachments (Sim.env Sim.no_scheme) "123"
      ["docs/a.png"; "gone.png"] Sim.start
    = (Returns ([], es), st')
    /\ length es = 2
    /\ wire st' = [].
Proof.
  exact (batch_on_rejected_endpoint (Sim.env Sim.no_scheme) "123"
           (urlError "parse"
              "wiki.example.com/rest/api/content/123/child/attachment"
              "invalid URI for request")
           ["docs/a.png"; "gone.png"] Sim.start eq_refl).
Defined.

Lemma batch_panics_only_on_short_id_witness :
  exists f attachment st0,
    In f ["gone.png"; "docs/a.png"]
    /\ GetAttachmentByFilename (Sim.env Sim.has_short_id) "123"
         (Go.path_Base f) st0
       = (Returns (Ok attachment),
          mkState 0
            [ev_request "GET"
               "https://wiki.example.com/rest/api/content/123/child/attachment?filename=gone.png"
               "" "";
             Sim.sent_lookup])
    /\ String.length (Id attachment) < 3.
Proof.
  exact (proj2 (batch_panics_only_on_short_id (Sim.env Sim.has_short_id)
                  "123" ["gone.png"; "docs/a.png"] [] [] Sim.start _
                  "slice bounds out of range" eq_refl)).
Defined.

Lemma collection_endpoint_injective_witness :
  exists u1 u2,
    newAttachmentEndpoint (Sim.env Sim.has_a_png) "12/3" = Ok u1
    /\ newAttachmentEndpoint (Sim.env Sim.has_a_png) "123" = Ok u2
    /\ url_String (Sim.env Sim.has_a_png) u1
       = "https://wiki.example.com/rest/api/content/12/3/child/attachment"
    /\ url_String (Sim.env Sim.has_a_png) u1
       <> url_String (Sim.env Sim.has_a_png) u2.
Proof.
  assert (Hne : "12/3" <> "123") by discriminate.
  exact (collection_endpoint_injective (Sim.env Sim.has_a_png)
           "12/3" "123" eq_refl eq_refl Hne).
Defined.

Lemma data_endpoint_injective_witness :
  exists u1 u2,
    attachmentDataEndpoint (Sim.env Sim.has_a_png) "123" "123456" = Ok u1
    /\ attachmentDataEndpoint (Sim.env Sim.has_a_png) "123" "123457" = Ok u2
    /\ url_String (Sim.env Sim.has_a_png) u1
       = "https://wiki.example.com/rest/api/content/123/child/attachment/123456/data"
    /\ url_String (Sim.env Sim.has_a_png) u1
       <> url_String (Sim.env Sim.has_a_png) u2.
Proof.
  assert (Hne : ("123", "123456") <> ("123", "123457")) by discriminate.
  exact (data_endpoint_injective (Sim.env Sim.has_a_png)
           "123" "123456" "123" "123457"
           eq_refl eq_refl eq_refl eq_refl Hne).
Defined.

Lemma lookup_query_determines_filename_witness :
  Go.Values_Encode1 "filename" "a b.png" = "filename=a+b.png"
  /\ Go.Values_Encode1 "filename" "a+b.png" = "filename=a%2Bb.png"
  /\ Go.Values_Encode1 "filename" "a b.png"
     <> Go.Values_Encode1 "filename" "a+b.png".
Proof.
  assert (Hne : "a b.png" <> "a+b.png") by discriminate.
  split; [reflexivity|]. split; [reflexivity|].
  exact (lookup_query_determines_filename "a b.png" "a+b.png" Hne).
Defined.

Lemma path_Base_of_bare_name_witness :
  "a.png" <> "" /\ no_slash "a.png" = true /\ Go.path_Base "a.png" = "a.png".
Proof.
  assert (Hne : "a.png" <> "") by discriminate.
  split; [exact Hne|]. split; [reflexivity|].
  exact (path_Base_of_bare_name "a.png" Hne eq_refl).
Defined.
